(** * Smart Traffic System: the prediction-and-collection pipeline of [app.py]

    A shallow embedding of [TrafficPredictor], [IoTSimulator],
    [store_traffic_data] and [data_collection_job], and the properties the
    specification states about them.

    - Python [float] is IEEE 754 binary64: it is Rocq's primitive [float],
      with the same rounding of every operation and of every literal.
    - [random], [datetime.now], the [models/] directory, standard output,
      the process-wide [predictor] and the SQLite file are threaded through
      an explicit [world]; exceptions are the [Raise] results of a small
      state-and-error monad.
    - scikit-learn and [pickle] are external: they are parameters of the
      development, gathered in type classes. *)

From Stdlib Require Import ZArith List String Bool Lia.
From Stdlib Require Import Floats.PrimFloat Floats.FloatOps Floats.SpecFloat.
From stdpp Require Import gmap strings sorting.

Local Open Scope string_scope.
Local Open Scope Z_scope.
Import ListNotations.

(** The decimal literals of the source ([0.15], [1.4], ...) are not binary
    fractions; Rocq reads them as Python does, as the nearest double. *)
Set Warnings "-inexact-float".

(* ===================================================================== *)
(** ** Python numbers *)
(* ===================================================================== *)

(** Binary64 arithmetic, as CPython performs it on [float] objects. *)
Module F64.

(** [float(z)] for an [int] [z]: the nearest double, an infinity past the
    largest one. *)
Definition of_Z (z : Z) : float :=
  SF2Prim (binary_normalize prec emax z 0 false).

(** A decimal given as a quotient of integers (division is correctly
    rounded, as the reading of a literal is). *)
Definition lit (n d : Z) : float := (of_Z n / of_Z d)%float.

(** [int(x)]: truncation toward zero.  [int] raises [ValueError] on NaN
    and [OverflowError] on the infinities; callers test [is_finite] first,
    and the value chosen here for them is never used. *)
Definition trunc (x : float) : Z :=
  match Prim2SF x with
  | S754_finite s m e =>
      cond_Zopp s
        (match e with
         | Z0 => Zpos m
         | Zpos p => Z.shiftl (Zpos m) (Zpos p)
         | Zneg p => Z.shiftr (Zpos m) (Zpos p)
         end)
  | _ => 0
  end.

(** The integer nearest to [num/den] ([den > 0]), ties to even. *)
Definition nearest_even (num den : Z) : Z :=
  let (q, r) := Z.div_eucl num den in
  match 2 * r ?= den with
  | Lt => q
  | Gt => q + 1
  | Eq => if Z.even q then q else q + 1
  end.

(** [round(x, 1)] on a float: CPython prints the exact binary value with
    one correctly rounded decimal and reads the decimal back, so the
    result is the double nearest to [n/10] where [n] is the integer
    nearest to [10 * |x|].  From [2^49] on, doubles are more than [0.1]
    apart and [round] returns its argument. *)
Definition round1 (x : float) : float :=
  match Prim2SF x with
  | S754_finite s m (Zneg p) =>
      if Z.pos m <? 2 ^ (49 + Z.pos p) then
        let n := nearest_even (10 * Z.pos m) (2 ^ Z.pos p) in
        let r := (of_Z n / 10)%float in
        if s then (- r)%float else r
      else x
  | _ => x
  end.


End F64.

(** A Python number: [max(2, x)] yields the [int] [2] or the [float] [x],
    and [round] keeps the type of its argument. *)
Inductive pynum : Type :=
  | PyInt (z : Z)
  | PyFloat (x : float).

(** [max(k, x)] for an [int] [k] and a [float] [x]: the first argument
    stays unless the second is strictly greater. *)
Definition py_max (k : Z) (x : float) : pynum :=
  if (F64.of_Z k <? x)%float then PyFloat x else PyInt k.

(** [round(v, 1)]. *)
Definition py_round1 (v : pynum) : pynum :=
  match v with
  | PyInt z => PyInt z
  | PyFloat x => PyFloat (F64.round1 x)
  end.



(* ===================================================================== *)
(** ** The clock, and two utilities *)
(* ===================================================================== *)

(** [datetime.now()]: the fields the program reads. *)
Record datetime : Type := {
  dt_hour : Z;          (* [.hour], 0..23 *)
  dt_weekday : Z;       (* [.weekday()], 0..6 *)
  dt_isoformat : string (* [.isoformat()] *)
}.

(** Enumeration of an integer interval, for the finitely many arguments
    the float formulas of the simulator can receive. *)
Fixpoint Zrange_forallb (f : Z -> bool) (lo : Z) (n : nat) : bool :=
  match n with
  | O => true
  | S k => f lo && Zrange_forallb f (lo + 1) k
  end.

(** [needle in hay] on [str]. *)
Definition str_contains (needle hay : string) : bool :=
  match String.index 0 needle hay with
  | Some _ => true
  | None => false
  end.

(* ===================================================================== *)
(** ** [class IoTSimulator] *)
(* ===================================================================== *)

(** One value of the [self.sensors] dict.  Every literal of the source
    has a ["congestion_type"]; the field is optional because the code reads
    it with [.get("congestion_type", "medium")]. *)
Record Location : Type := {
  lat : float;
  lng : float;
  name : string;
  congestion_type : option string
}.

(** [__init__]: the dict literal, in insertion order (the order in which
    [.items()] yields it). *)
Definition IoTSimulator_sensors : list (string * Location) :=
  let loc la lo n c :=
    {| lat := F64.lit la 10000; lng := F64.lit lo 10000;
       name := n; congestion_type := Some c |} in
  [ ("delhi_cp", loc 286315 772167 "Connaught Place, Delhi" "high");
    ("delhi_iffco", loc 284595 770266 "IFFCO Chowk, Gurgaon" "high");
    ("delhi_lajpat", loc 285677 772334 "Lajpat Nagar, Delhi" "medium");
    ("delhi_dwarka", loc 285921 770460 "Dwarka Sector 21, Delhi" "low");
    ("blr_silk", loc 129279 776271 "Silk Board Junction, Bengaluru" "high");
    ("blr_electronic", loc 128456 776632 "Electronic City, Bengaluru" "high");
    ("blr_jayanagar", loc 129250 775946 "Jayanagar 4th Block, Bengaluru" "medium");
    ("blr_hebbal", loc 130358 775970 "Hebbal Flyover, Bengaluru" "low");
    ("mumbai_bandra", loc 190596 728295 "Bandra Kurla Complex, Mumbai" "high");
    ("mumbai_andheri", loc 191136 728697 "Andheri East, Mumbai" "medium");
    ("chennai_adyar", loc 130067 802206 "Adyar Signal, Chennai" "medium");
    ("chennai_omr", loc 128406 801534 "OMR IT Corridor, Chennai" "low") ].

(** One element of the list [generate_sensor_data] returns. *)
Record reading : Type := {
  sensor_id : string;
  timestamp : string;
  vehicle_count : Z;
  avg_speed : pynum;
  location : Location;
  congestion_level : string
}.

(** The three hour tests of the [if]/[elif] chain (app.py 280, 287, 294). *)
Definition rush_hour (hour : Z) : bool :=
  ((7 <=? hour) && (hour <=? 11)) || ((16 <=? hour) && (hour <=? 21)).
Definition afternoon (hour : Z) : bool := (12 <=? hour) && (hour <=? 15).
Definition night_time (hour : Z) : bool := (22 <=? hour) || (hour <=? 5).

(** app.py 271-277. *)
Definition base_vehicles_of (ctype : string) : Z :=
  if String.eqb ctype "high" then 60
  else if String.eqb ctype "medium" then 35
  else 20.

(** app.py 302-308: [int(base_vehicles * 1.4)] and its siblings. *)
Definition city_multiplier (sid : string) (base_vehicles : Z) : Z :=
  if str_contains "mumbai" sid then
    F64.trunc (F64.of_Z base_vehicles * 1.4)%float
  else if str_contains "delhi" sid || str_contains "blr" sid then
    F64.trunc (F64.of_Z base_vehicles * 1.2)%float
  else if str_contains "chennai" sid then
    F64.trunc (F64.of_Z base_vehicles * 1.1)%float
  else base_vehicles.

(** app.py 314, 316, 318 before [max]: [a - (vehicle_count * s) + jitter],
    evaluated left to right in binary64. *)
Definition speed_expr (a : Z) (s : float) (count jitter : Z) : float :=
  (F64.of_Z a - F64.of_Z count * s + F64.of_Z jitter)%float.

(** app.py 327-331. *)
Definition level_of (count : Z) : string :=
  if count >? 80 then "High" else if count >? 40 then "Medium" else "Low".

(** One row of the training [DataFrame]. *)
Record sample : Type := {
  s_hour : Z;
  s_day_of_week : Z;
  s_weather : Z;
  s_traffic_flow : Z
}.

(** The random source.  [random.randint(a, b)] is
    [a + _randbelow(b - a + 1)] and [random.choice(seq)] is
    [seq[_randbelow(len(seq))]], where [_randbelow n] returns a number of
    [0, n). *)
Class RandomSource : Type := {
  rng : Type;
  randbelow : Z -> rng -> Z * rng;
  randbelow_range : forall n g, 0 < n -> 0 <= fst (randbelow n g) < n
}.

(** scikit-learn, as far as the program uses it: fitting yields fitted
    parameters, [transform] and [predict] are functions of them.  A forest
    averages finite training targets: it never predicts NaN or an
    infinity. *)
Class Sklearn : Type := {
  forest : Type;
  scaler_params : Type;
  scaled : Type;
  scaler_fit : list (Z * Z * Z) -> scaler_params;
  scaler_transform : scaler_params -> Z * Z * Z -> scaled;
  forest_fit : Z -> Z -> list scaled -> list Z -> forest;
  forest_predict : forest -> scaled -> float;
  forest_score : forest -> list scaled -> list Z -> float;
  (* train_test_split(X, y, test_size=0.2, random_state=42) *)
  train_test_split : list sample -> list sample * list sample;
  forest_predict_finite :
    forall f x, is_finite (forest_predict f x) = true
}.

(** The estimator object: its constructor arguments and, once [fit] has
    run, the fitted trees.  [predict] on an unfitted estimator raises
    [NotFittedError]; so does [transform] on an unfitted scaler. *)
Record RandomForestRegressor `{Sklearn} : Type := {
  n_estimators : Z;
  random_state : Z;
  estimators_ : option forest
}.

Definition StandardScaler `{Sklearn} : Type := option scaler_params.

(** The dict [save_model] dumps to [model_info.json]. *)
Record model_info : Type := {
  trained_at : string;
  model_type : string;
  info_n_estimators : Z;
  features : list string;
  info_is_trained : bool
}.

(** A file of the [models/] directory: present and readable with its
    bytes, or present and not readable ([open] raises). *)
Inductive file : Type :=
  | Readable (bytes : string)
  | Unreadable.

Inductive exn : Type :=
  | NotFittedError
  | ValueError
  | OverflowError
  | OSError (path : string)
  | UnpicklingError (path : string)
  | JSONDecodeError
  | OperationalError (msg : string).

Inductive log_line : Type :=
  | LogTraining                          (* "Training ML model..." *)
  | LogTrained (score : float)           (* "Model trained with accuracy" *)
  | LogSaved (path : string)
  | LogSaveError (e : exn)
  | LogLoaded (trained_at : option string)
  | LogNoModel
  | LogLoadError (e : exn)               (* "Error loading model", "Will train new model" *)
  | LogCollected (at_time : datetime)
  | LogCollectionError (e : exn).

(** A value of a column of [traffic_data]. *)
Inductive sqlval : Type :=
  | SqlNull
  | SqlInteger (z : Z)
  | SqlReal (x : float)
  | SqlText (s : string).

(** app.py 348-358: a row of [traffic_data].  No column but [id] is
    declared NOT NULL. *)
Record row : Type := {
  col_id : Z;
  col_sensor_id : sqlval;
  col_timestamp : sqlval;
  col_vehicle_count : sqlval;
  col_avg_speed : sqlval;
  col_congestion_level : sqlval;
  col_predicted_flow : sqlval
}.

(** A row carries a prediction: its [predicted_flow] is an integer, not
    NULL, and not negative. *)
Definition has_prediction (r : row) : Prop :=
  exists v, col_predicted_flow r = SqlInteger v /\ 0 <= v.

(** The committed content of [traffic_data.db]: the table, absent until
    [init_db] creates it, and the AUTOINCREMENT counter. *)
Record database : Type := {
  traffic_data : option (list row);
  sqlite_sequence : Z
}.

(** The rest of the host: [pickle] and [json] (loading fails on bytes
    that are not a dump), the clock (the value of the [n]-th call of
    [datetime.now()]), and failure injection: whether opening a path for
    writing raises; whether the dump into the opened file raises, and
    after how many bytes; whether [os.makedirs] of a path raises; whether
    the INSERT of a row raises. *)
Class Host `{Sklearn} : Type := {
  pickle_dumps_model : RandomForestRegressor -> string;
  pickle_loads_model : string -> option RandomForestRegressor;
  pickle_dumps_scaler : StandardScaler -> string;
  pickle_loads_scaler : string -> option StandardScaler;
  json_dumps : model_info -> string;
  (* json.load(f).get('trained_at', 'Unknown'); None when it raises *)
  json_trained_at : string -> option string;
  clock : nat -> datetime;
  write_fails : string -> bool;
  dump_fails : string -> option nat;
  makedirs_fails : string -> bool;
  insert_fails : row -> bool
}.

(** Computations return or raise. *)
Inductive result (A : Type) : Type :=
  | Ok (a : A)
  | Raise (e : exn).
Arguments Ok {A} a.
Arguments Raise {A} e.

(** [datetime + timedelta(hours=i)], as far as the program reads the
    result: the hour of a time [i] hours later. *)
Class Calendar : Type := {
  add_hours : datetime -> Z -> datetime;
  add_hours_hour :
    forall t i, 0 <= dt_hour t < 24 -> 0 <= i ->
      dt_hour (add_hours t i) = (dt_hour t + i) mod 24
}.

Section App.

Context `{RandomSource} `{Host}.

(** Computations that draw random numbers. *)
Definition R (A : Type) : Type := rng -> A * rng.
Definition rret {A} (a : A) : R A := fun g => (a, g).
Definition rbind {A B} (m : R A) (k : A -> R B) : R B :=
  fun g => let (a, g') := m g in k a g'.

Notation "x <~ m ;; k" := (rbind m (fun x => k))
  (at level 100, m at next level, right associativity).

Definition randint (a b : Z) : R Z :=
  r <~ randbelow (b - a + 1) ;; rret (a + r).

Definition choice (seq : list Z) : R Z :=
  i <~ randbelow (Z.of_nat (length seq)) ;; rret (nth (Z.to_nat i) seq 0).

(** app.py 279-300: the time-of-day adjustment of [base_vehicles]. *)
Definition time_of_day (ctype : string) (hour base_vehicles : Z) : R Z :=
  if rush_hour hour then
    if String.eqb ctype "high" then
      r <~ randint 100 180 ;; rret (base_vehicles + r)
    else if String.eqb ctype "medium" then
      r <~ randint 60 120 ;; rret (base_vehicles + r)
    else
      r <~ randint 30 80 ;; rret (base_vehicles + r)
  else if afternoon hour then
    if String.eqb ctype "high" then
      r <~ randint 40 80 ;; rret (base_vehicles + r)
    else if String.eqb ctype "medium" then
      r <~ randint 20 50 ;; rret (base_vehicles + r)
    else
      r <~ randint 10 30 ;; rret (base_vehicles + r)
  else if night_time hour then
    if String.eqb ctype "high" then randint 15 35
    else if String.eqb ctype "medium" then randint 8 20
    else randint 3 12
  else rret base_vehicles.

(** app.py 312-318: the speed before rounding. *)
Definition speed_of (ctype : string) (count : Z) : R pynum :=
  if String.eqb ctype "high" then
    j <~ randint (-10) 5 ;; rret (py_max 2 (speed_expr 18 0.15 count j))
  else if String.eqb ctype "medium" then
    j <~ randint (-8) 8 ;; rret (py_max 5 (speed_expr 28 0.18 count j))
  else
    j <~ randint (-5) 10 ;; rret (py_max 8 (speed_expr 40 0.22 count j)).

(** app.py 266-333: the body of the loop over [self.sensors.items()]. *)
Definition sensor_reading (current_time : datetime)
    (sid : string) (loc : Location) : R reading :=
  let hour := dt_hour current_time in
  let ctype := default "medium" (congestion_type loc) in
  let base_vehicles := base_vehicles_of ctype in
  base_vehicles <~ time_of_day ctype hour base_vehicles ;;
  let base_vehicles := city_multiplier sid base_vehicles in
  jitter <~ randint (-15) 15 ;;
  let count := base_vehicles + jitter in
  speed <~ speed_of ctype count ;;
  rret {| sensor_id := sid;
          timestamp := dt_isoformat current_time;
          vehicle_count := Z.max 0 count;
          avg_speed := py_round1 speed;
          location := loc;
          congestion_level := level_of count |}.

(** [generate_sensor_data], given the [datetime.now()] it reads first. *)
Fixpoint generate_readings (current_time : datetime)
    (sensors : list (string * Location)) : R (list reading) :=
  match sensors with
  | [] => rret []
  | (sid, loc) :: rest =>
      r <~ sensor_reading current_time sid loc ;;
      rs <~ generate_readings current_time rest ;;
      rret (r :: rs)
  end.

(** app.py 36-74: [generate_training_data]; [data] is built in the order
    of generation. *)
Fixpoint generate_training_data (n_samples : nat) : R (list sample) :=
  match n_samples with
  | O => rret []
  | S k =>
      hour <~ randint 0 23 ;;
      day_of_week <~ randint 0 6 ;;
      weather <~ choice [0; 1; 2] ;;
      let base_flow := 80 in
      base_flow <~
        (if rush_hour hour then
           r <~ randint 150 300 ;; rret (base_flow + r)
         else if afternoon hour then
           r <~ randint 50 100 ;; rret (base_flow + r)
         else if night_time hour then
           r <~ randint 30 50 ;; rret (base_flow - r)
         else rret base_flow) ;;
      base_flow <~
        (if day_of_week >=? 5 then
           r <~ randint 20 40 ;; rret (base_flow - r)
         else rret base_flow) ;;
      base_flow <~
        (if weather =? 1 then
           r <~ randint 40 80 ;; rret (base_flow + r)
         else rret base_flow) ;;
      j <~ randint (-30) 30 ;;
      let s := {| s_hour := hour; s_day_of_week := day_of_week;
                  s_weather := weather;
                  s_traffic_flow := Z.max 0 (base_flow + j) |} in
      rest <~ generate_training_data k ;;
      rret (s :: rest)
  end.

(* ===================================================================== *)
(** ** The world the program runs in *)
(* ===================================================================== *)

(** [class TrafficPredictor]: the attributes of an instance. *)
Record TrafficPredictor : Type := {
  model : RandomForestRegressor;
  scaler : StandardScaler;
  is_trained : bool;
  model_path : string;
  scaler_path : string;
  model_info_path : string
}.

Record world : Type := {
  w_rng : rng;
  w_clock : nat;
  w_disk : gmap string file;
  w_stdout : list log_line;
  w_predictor : TrafficPredictor;   (* the global [predictor] *)
  w_db : database;                  (* [traffic_data.db] *)
  w_slept : Z                       (* seconds spent in [time.sleep] *)
}.

(** Computations of the program: they change the world and return or
    raise.  What a computation did before it raised stays done. *)
Definition M (A : Type) : Type := world -> result A * world.

Definition ret {A} (a : A) : M A := fun w => (Ok a, w).
Definition raise {A} (e : exn) : M A := fun w => (Raise e, w).
Definition bind {A B} (m : M A) (k : A -> M B) : M B :=
  fun w =>
    match m w with
    | (Ok a, w') => k a w'
    | (Raise e, w') => (Raise e, w')
    end.

(** [try: m  except Exception as e: h e]. *)
Definition try_except {A} (m : M A) (h : exn -> M A) : M A :=
  fun w =>
    match m w with
    | (Ok a, w') => (Ok a, w')
    | (Raise e, w') => h e w'
    end.

Notation "x <- m ;; k" := (bind m (fun x => k))
  (at level 100, m at next level, right associativity).
Notation "m ;;; k" := (bind m (fun _ => k))
  (at level 100, right associativity).

Definition gets {A} (f : world -> A) : M A := fun w => (Ok (f w), w).
Definition modify (f : world -> world) : M unit := fun w => (Ok tt, f w).

Definition set_rng (g : rng) (w : world) : world :=
  {| w_rng := g; w_clock := w_clock w; w_disk := w_disk w;
     w_stdout := w_stdout w; w_predictor := w_predictor w;
     w_db := w_db w; w_slept := w_slept w |}.
Definition set_clock (n : nat) (w : world) : world :=
  {| w_rng := w_rng w; w_clock := n; w_disk := w_disk w;
     w_stdout := w_stdout w; w_predictor := w_predictor w;
     w_db := w_db w; w_slept := w_slept w |}.
Definition set_disk (d : gmap string file) (w : world) : world :=
  {| w_rng := w_rng w; w_clock := w_clock w; w_disk := d;
     w_stdout := w_stdout w; w_predictor := w_predictor w;
     w_db := w_db w; w_slept := w_slept w |}.
Definition set_stdout (l : list log_line) (w : world) : world :=
  {| w_rng := w_rng w; w_clock := w_clock w; w_disk := w_disk w;
     w_stdout := l; w_predictor := w_predictor w;
     w_db := w_db w; w_slept := w_slept w |}.
Definition set_predictor (p : TrafficPredictor) (w : world) : world :=
  {| w_rng := w_rng w; w_clock := w_clock w; w_disk := w_disk w;
     w_stdout := w_stdout w; w_predictor := p;
     w_db := w_db w; w_slept := w_slept w |}.
Definition set_db (d : database) (w : world) : world :=
  {| w_rng := w_rng w; w_clock := w_clock w; w_disk := w_disk w;
     w_stdout := w_stdout w; w_predictor := w_predictor w;
     w_db := d; w_slept := w_slept w |}.
Definition set_slept (s : Z) (w : world) : world :=
  {| w_rng := w_rng w; w_clock := w_clock w; w_disk := w_disk w;
     w_stdout := w_stdout w; w_predictor := w_predictor w;
     w_db := w_db w; w_slept := s |}.

(** Drawing from the process-wide [random]. *)
Definition draw {A} (m : R A) : M A :=
  fun w => let (a, g) := m (w_rng w) in (Ok a, set_rng g w).

Definition datetime_now : M datetime :=
  fun w => (Ok (clock (w_clock w)), set_clock (S (w_clock w)) w).

Definition print (l : log_line) : M unit :=
  modify (fun w => set_stdout (w_stdout w ++ [l]) w).

Definition time_sleep (seconds : Z) : M unit :=
  modify (fun w => set_slept (w_slept w + seconds) w).

(** [with open(path, "rb") as f: ... f.read()]. *)
Definition read_file (path : string) : M string :=
  fun w =>
    match w_disk w !! path with
    | Some (Readable bytes) => (Ok bytes, w)
    | _ => (Raise (OSError path), w)
    end.

(** [with open(path, "wb") as f: dump(obj, f)], where [bytes] is what the
    dump produces.  When [open] raises, the file is left as it was.  Once
    [open] has returned the file is empty; a dump that raises leaves in it
    the bytes it had written, and the old content is lost. *)
Definition write_file (path bytes : string) : M unit :=
  fun w =>
    if write_fails path then (Raise (OSError path), w)
    else
      match dump_fails path with
      | Some n =>
          (Raise (OSError path),
           set_disk (<[path := Readable (substring 0 n bytes)]> (w_disk w)) w)
      | None => (Ok tt, set_disk (<[path := Readable bytes]> (w_disk w)) w)
      end.

(** [os.makedirs(path, exist_ok=True)].  The disk maps paths to regular
    files: a file standing at [path] makes the call raise
    ([FileExistsError]), as does a refusal of the host.  Directories are
    not recorded. *)
Definition os_makedirs (path : string) : M unit :=
  fun w =>
    match w_disk w !! path with
    | Some _ => (Raise (OSError path), w)
    | None =>
        if makedirs_fails path then (Raise (OSError path), w) else (Ok tt, w)
    end.

(** [os.path.exists(path)]. *)
Definition path_exists (path : string) : M bool :=
  gets (fun w => match w_disk w !! path with Some _ => true | None => false end).

Definition get_self : M TrafficPredictor := gets w_predictor.
Definition set_self (p : TrafficPredictor) : M unit := modify (set_predictor p).

(* ===================================================================== *)
(** ** [class TrafficPredictor] *)
(* ===================================================================== *)

Definition set_model (m : RandomForestRegressor) (p : TrafficPredictor) :=
  {| model := m; scaler := scaler p; is_trained := is_trained p;
     model_path := model_path p; scaler_path := scaler_path p;
     model_info_path := model_info_path p |}.
Definition set_scaler (s : StandardScaler) (p : TrafficPredictor) :=
  {| model := model p; scaler := s; is_trained := is_trained p;
     model_path := model_path p; scaler_path := scaler_path p;
     model_info_path := model_info_path p |}.
Definition set_is_trained (b : bool) (p : TrafficPredictor) :=
  {| model := model p; scaler := scaler p; is_trained := b;
     model_path := model_path p; scaler_path := scaler_path p;
     model_info_path := model_info_path p |}.

(** app.py 76-104. *)
Definition save_model : M bool :=
  try_except
    (self <- get_self ;;
     write_file (model_path self) (pickle_dumps_model (model self)) ;;;
     write_file (scaler_path self) (pickle_dumps_scaler (scaler self)) ;;;
     now <- datetime_now ;;
     let info :=
       {| trained_at := dt_isoformat now;
          model_type := "RandomForestRegressor";
          info_n_estimators := n_estimators (model self);
          features := ["hour"; "day_of_week"; "weather"];
          info_is_trained := is_trained self |} in
     write_file (model_info_path self) (json_dumps info) ;;;
     print (LogSaved (model_path self)) ;;;
     ret true)
    (fun e => print (LogSaveError e) ;;; ret false).

(** [pickle.load] of an opened file. *)
Definition unpickle {A} (loads : string -> option A) (path : string) : M A :=
  bytes <- read_file path ;;
  match loads bytes with
  | Some v => ret v
  | None => raise (UnpicklingError path)
  end.

(** app.py 106-138. *)
Definition load_model : M bool :=
  try_except
    (self <- get_self ;;
     has_model <- path_exists (model_path self) ;;
     has_scaler <- (if has_model then path_exists (scaler_path self)
                    else ret false) ;;
     if has_model && has_scaler then
       m <- unpickle pickle_loads_model (model_path self) ;;
       self <- get_self ;; set_self (set_model m self) ;;;
       s <- unpickle pickle_loads_scaler (scaler_path self) ;;
       self <- get_self ;; set_self (set_scaler s self) ;;;
       self <- get_self ;; set_self (set_is_trained true self) ;;;
       has_info <- path_exists (model_info_path self) ;;
       (if has_info then
          bytes <- read_file (model_info_path self) ;;
          match json_trained_at bytes with
          | Some t => print (LogLoaded (Some t))
          | None => raise JSONDecodeError
          end
        else print (LogLoaded None)) ;;;
       ret true
     else
       print LogNoModel ;;; ret false)
    (fun e => print (LogLoadError e) ;;; ret false).

(** app.py 22-34: [TrafficPredictor()], bound to the global [predictor].
    [os.makedirs] stands outside any [try]: when it raises, the
    constructor raises, no predictor is bound and the module does not
    load; the predictor of the world is then the object that was under
    construction, which no code can reach. *)
Definition TrafficPredictor_init : M unit :=
  set_self
    {| model := {| n_estimators := 100; random_state := 42;
                   estimators_ := None |};
       scaler := None;
       is_trained := false;
       model_path := "models/traffic_model.pkl";
       scaler_path := "models/scaler.pkl";
       model_info_path := "models/model_info.json" |} ;;;
  os_makedirs "models" ;;;
  load_model ;;;
  ret tt.

Definition X_of (df : list sample) : list (Z * Z * Z) :=
  map (fun s => (s_hour s, s_day_of_week s, s_weather s)) df.
Definition y_of (df : list sample) : list Z := map s_traffic_flow df.

(** app.py 140-165. *)
Definition train_model : M float :=
  print LogTraining ;;;
  df <- draw (generate_training_data 1000) ;;
  let (train, test) := train_test_split df in
  (* self.scaler.fit_transform(X_train) *)
  let sc := scaler_fit (X_of train) in
  self <- get_self ;; set_self (set_scaler (Some sc) self) ;;;
  let X_train_scaled := map (scaler_transform sc) (X_of train) in
  let X_test_scaled := map (scaler_transform sc) (X_of test) in
  (* self.model.fit(X_train_scaled, y_train) *)
  self <- get_self ;;
  let f := forest_fit (n_estimators (model self)) (random_state (model self))
             X_train_scaled (y_of train) in
  set_self (set_model {| n_estimators := n_estimators (model self);
                         random_state := random_state (model self);
                         estimators_ := Some f |} self) ;;;
  self <- get_self ;; set_self (set_is_trained true self) ;;;
  let score := forest_score f X_test_scaled (y_of test) in
  print (LogTrained score) ;;;
  save_model ;;;
  ret score.

(** app.py 167-175. *)
Definition predict (hour day_of_week weather : Z) : M Z :=
  self <- get_self ;;
  (if is_trained self then ret tt else (train_model ;;; ret tt)) ;;;
  self <- get_self ;;
  let features := (hour, day_of_week, weather) in
  match scaler self with
  | None => raise NotFittedError
  | Some sc =>
      let features_scaled := scaler_transform sc features in
      match estimators_ (model self) with
      | None => raise NotFittedError
      | Some f =>
          let prediction := forest_predict f features_scaled in
          if is_finite prediction
          then ret (Z.max 0 (F64.trunc prediction))
          else raise (if is_nan prediction then ValueError else OverflowError)
      end
  end.

(* ===================================================================== *)
(** ** The store and the collector loop *)
(* ===================================================================== *)

(** [generate_sensor_data] of the global [iot_simulator]. *)
Definition generate_sensor_data : M (list reading) :=
  current_time <- datetime_now ;;
  draw (generate_readings current_time IoTSimulator_sensors).

(** app.py 344-361. *)
Definition init_db : M unit :=
  modify (fun w =>
    match traffic_data (w_db w) with
    | Some _ => w
    | None => set_db {| traffic_data := Some [];
                        sqlite_sequence := sqlite_sequence (w_db w) |} w
    end).

(** A [sqlite3] connection: what the file holds plus the rows of the
    transaction the connection has open.  Nothing reaches the file before
    [commit]; a connection dropped without [commit] loses them.  The
    database file is taken to open: [sqlite3_connect] returns. *)
Record connection : Type := { conn_view : database }.

Definition sqlite3_connect : M connection :=
  gets (fun w => {| conn_view := w_db w |}).

(** The value a REAL column stores for a Python number. *)
Definition real_affinity (v : pynum) : sqlval :=
  match v with
  | PyInt z => SqlReal (F64.of_Z z)
  | PyFloat x => SqlReal x
  end.

(** app.py 378-392: the INSERT of one record.  The program supplies no
    [id]: AUTOINCREMENT gives the row the successor of the largest one
    ever used, which the counter holds. *)
Definition cursor_execute_insert (conn : connection)
    (record : reading) (predicted_flow : Z) : M connection :=
  match traffic_data (conn_view conn) with
  | None => raise (OperationalError "no such table: traffic_data")
  | Some rows =>
      let id := sqlite_sequence (conn_view conn) + 1 in
      let r := {| col_id := id;
                  col_sensor_id := SqlText (sensor_id record);
                  col_timestamp := SqlText (timestamp record);
                  col_vehicle_count := SqlInteger (vehicle_count record);
                  col_avg_speed := real_affinity (avg_speed record);
                  col_congestion_level := SqlText (congestion_level record);
                  col_predicted_flow := SqlInteger predicted_flow |} in
      if insert_fails r then raise (OperationalError "insert failed")
      else ret {| conn_view := {| traffic_data := Some ((rows ++ [r])%list);
                                  sqlite_sequence := id |} |}
  end.

Definition conn_commit (conn : connection) : M unit :=
  modify (set_db (conn_view conn)).

(** app.py 369-392: the [for record in data] loop. *)
Fixpoint store_loop (data : list reading) (conn : connection) : M connection :=
  match data with
  | [] => ret conn
  | record :: rest =>
      current_time <- datetime_now ;;
      weather <- draw (randint 0 2) ;;
      predicted_flow <- predict (dt_hour current_time)
                                (dt_weekday current_time) weather ;;
      conn <- cursor_execute_insert conn record predicted_flow ;;
      store_loop rest conn
  end.

(** app.py 364-395.  After the commit, [conn.close()] has nothing left
    to do. *)
Definition store_traffic_data (data : list reading) : M unit :=
  conn <- sqlite3_connect ;;
  conn <- store_loop data conn ;;
  conn_commit conn.

(** app.py 402-405: the [try] block of one turn of the loop. *)
Definition tick_body : M unit :=
  sensor_data <- generate_sensor_data ;;
  store_traffic_data sensor_data ;;;
  now <- datetime_now ;;
  print (LogCollected now) ;;;
  time_sleep 30.

(** app.py 401-408: one turn of the [while True] loop. *)
Definition collection_tick : M unit :=
  try_except tick_body
    (fun e => print (LogCollectionError e) ;;; time_sleep 30).

(** app.py 398-408: the first [ticks] turns of [data_collection_job]. *)
Fixpoint data_collection_job (ticks : nat) : M unit :=
  match ticks with
  | O => ret tt
  | S n => collection_tick ;;; data_collection_job n
  end.

(* ===================================================================== *)
(** ** The request handlers and the scripts *)
(* ===================================================================== *)

(** One element of the list [get_current_traffic] returns: the reading
    with the two keys the handler adds to it. *)
Record current_traffic : Type := {
  ct_data : reading;
  ct_predicted_flow : Z;
  ct_light_recommendation : string
}.

(** app.py 423-436: the [for data in sensor_data] loop. *)
Fixpoint current_traffic_loop (sensor_data : list reading)
  : M (list current_traffic) :=
  match sensor_data with
  | [] => ret []
  | data :: rest =>
      current_time <- datetime_now ;;
      weather <- draw (randint 0 2) ;;
      predicted_flow <- predict (dt_hour current_time)
                                (dt_weekday current_time) weather ;;
      let light :=
        if String.eqb (congestion_level data) "High" then "Extend Green"
        else if String.eqb (congestion_level data) "Low" then "Normal Cycle"
        else "Optimize Timing" in
      entries <- current_traffic_loop rest ;;
      ret ({| ct_data := data;
              ct_predicted_flow := predicted_flow;
              ct_light_recommendation := light |} :: entries)
  end.

(** app.py 417-438: the list handed to [jsonify]. *)
Definition get_current_traffic : M (list current_traffic) :=
  sensor_data <- generate_sensor_data ;;
  current_traffic_loop sensor_data.

Context `{Calendar}.

(** One element of the list [get_predictions] returns. *)
Record prediction : Type := {
  p_hour : Z;
  p_predicted_flow : Z;
  p_timestamp : string
}.

(** app.py 447-459: the turns [i], [i + 1], ... of [for i in range(24)]. *)
Fixpoint predictions_loop (current_time : datetime) (i : Z) (turns : nat)
  : M (list prediction) :=
  match turns with
  | O => ret []
  | S k =>
      let future_time := add_hours current_time i in
      weather <- draw (randint 0 2) ;;
      predicted_flow <- predict (dt_hour future_time)
                                (dt_weekday future_time) weather ;;
      predictions <- predictions_loop current_time (i + 1) k ;;
      ret ({| p_hour := dt_hour future_time;
              p_predicted_flow := predicted_flow;
              p_timestamp := dt_isoformat future_time |} :: predictions)
  end.

(** app.py 441-461: the list handed to [jsonify]. *)
Definition get_predictions : M (list prediction) :=
  current_time <- datetime_now ;;
  predictions_loop current_time 0 24.

(** benchmark_model.py 97-100: [n] predictions for one test case,
    appended in order. *)
Fixpoint predict_repeatedly (n : nat) (hour day_of_week weather : Z)
  : M (list Z) :=
  match n with
  | O => ret []
  | S k =>
      pred <- predict hour day_of_week weather ;;
      predictions <- predict_repeatedly k hour day_of_week weather ;;
      ret (pred :: predictions)
  end.

(** benchmark_model.py 104: [len(set(predictions)) == 1]. *)
Definition all_same (predictions : list Z) : bool :=
  Nat.eqb (size (list_to_set predictions : gset Z)) 1.

(** analyze_model.py 113-147: [generate_test_data]. *)
Fixpoint generate_test_data (n_samples : nat) : R (list sample) :=
  match n_samples with
  | O => rret []
  | S k =>
      hour <~ randint 0 23 ;;
      day_of_week <~ randint 0 6 ;;
      weather <~ choice [0; 1; 2] ;;
      let base_flow := 80 in
      base_flow <~
        (if ((7 <=? hour) && (hour <=? 11)) || ((16 <=? hour) && (hour <=? 21))
         then r <~ randint 150 300 ;; rret (base_flow + r)
         else if (12 <=? hour) && (hour <=? 15)
         then r <~ randint 50 100 ;; rret (base_flow + r)
         else if (22 <=? hour) || (hour <=? 5)
         then r <~ randint 30 50 ;; rret (base_flow - r)
         else rret base_flow) ;;
      base_flow <~
        (if day_of_week >=? 5
         then r <~ randint 20 40 ;; rret (base_flow - r)
         else rret base_flow) ;;
      base_flow <~
        (if weather =? 1
         then r <~ randint 40 80 ;; rret (base_flow + r)
         else rret base_flow) ;;
      j <~ randint (-30) 30 ;;
      let traffic_flow := Z.max 0 (base_flow + j) in
      rest <~ generate_test_data k ;;
      rret ({| s_hour := hour; s_day_of_week := day_of_week;
               s_weather := weather; s_traffic_flow := traffic_flow |} :: rest)
  end.

(* ===================================================================== *)
(** ** Notions the properties are stated with *)
(* ===================================================================== *)

(** What [predict] computes from the attributes of a predictor, once
    past the training test (app.py 172-175). *)
Definition infer (p : TrafficPredictor) (hour day_of_week weather : Z)
  : result Z :=
  match scaler p with
  | None => Raise NotFittedError
  | Some sc =>
      match estimators_ (model p) with
      | None => Raise NotFittedError
      | Some f =>
          let prediction :=
            forest_predict f (scaler_transform sc (hour, day_of_week, weather)) in
          if is_finite prediction
          then Ok (Z.max 0 (F64.trunc prediction))
          else Raise (if is_nan prediction then ValueError else OverflowError)
      end
  end.

(** The number of training runs standard output records. *)
Definition training_runs (out : list log_line) : nat :=
  length (List.filter (fun l => match l with LogTraining => true | _ => false end) out).

(** The number of turns of the collector loop standard output records. *)
Definition ticks_logged (out : list log_line) : nat :=
  length (List.filter (fun l => match l with
                           | LogCollected _ | LogCollectionError _ => true
                           | _ => false
                           end) out).

(** What [pickle.load] yields for a path: [None] when the file is absent,
    not readable, or not a dump. *)
Definition restorable {A} (loads : string -> option A)
    (disk : gmap string file) (path : string) : option A :=
  match disk !! path with
  | Some (Readable bytes) => loads bytes
  | _ => None
  end.

(** The rows of [traffic_data] ([[]] before [init_db]). *)
Definition stored_rows (w : world) : list row :=
  default [] (traffic_data (w_db w)).

(** The row [cursor_execute_insert] builds for a record (app.py 384-391). *)
Definition row_of (id : Z) (record : reading) (flow : Z) : row :=
  {| col_id := id;
     col_sensor_id := SqlText (sensor_id record);
     col_timestamp := SqlText (timestamp record);
     col_vehicle_count := SqlInteger (vehicle_count record);
     col_avg_speed := real_affinity (avg_speed record);
     col_congestion_level := SqlText (congestion_level record);
     col_predicted_flow := SqlInteger flow |}.

(** The rows of the records of one tick, given the predictions, when the
    counter stands at [seq]. *)
Fixpoint rows_from (seq : Z) (data : list reading) (flows : list Z)
  : list row :=
  match data, flows with
  | record :: data', flow :: flows' =>
      row_of (seq + 1) record flow :: rows_from (seq + 1) data' flows'
  | _, _ => []
  end.

(** The number of failed turns of the collector loop standard output
    records. *)
Definition errors_logged (out : list log_line) : nat :=
  length (List.filter (fun l => match l with
                                | LogCollectionError _ => true
                                | _ => false
                                end) out).

(** The ids of the stored rows increase in the order of insertion and none
    exceeds the AUTOINCREMENT counter. *)
Definition ids_ok (db : database) : Prop :=
  match traffic_data db with
  | None => True
  | Some rows =>
      StronglySorted Z.lt (map col_id rows) /\
      Forall (fun r => col_id r <= sqlite_sequence db) rows
  end.

(** A write succeeds when neither [open] nor the dump raises. *)
Definition write_succeeds (path : string) : Prop :=
  write_fails path = false /\ dump_fails path = None.

(** A predictor is ready when, if marked trained, it holds a fitted
    scaler and a fitted forest: the states [predict] returns from. *)
Definition ready (p : TrafficPredictor) : Prop :=
  is_trained p = true ->
  scaler p <> None /\ estimators_ (model p) <> None.

(** What one generated sample satisfies: the ranges of its fields and
    the separation of the hour bands. *)
Definition sample_in_range (s : sample) : Prop :=
  0 <= s_hour s <= 23 /\ 0 <= s_day_of_week s <= 6 /\
  (s_weather s = 0 \/ s_weather s = 1 \/ s_weather s = 2) /\
  0 <= s_traffic_flow s <= 490.

Definition sample_separated (s : sample) : Prop :=
  ((7 <= s_hour s <= 11 \/ 16 <= s_hour s <= 21) -> 160 <= s_traffic_flow s) /\
  ((22 <= s_hour s \/ s_hour s <= 5) -> s_traffic_flow s <= 160) /\
  (s_day_of_week s < 5 -> s_weather s <> 1 ->
   ((7 <= s_hour s <= 11 \/ 16 <= s_hour s <= 21) ->
      200 <= s_traffic_flow s <= 410) /\
   ((22 <= s_hour s \/ s_hour s <= 5) -> s_traffic_flow s <= 80)).

End App.

(* ===================================================================== *)
(** ** Concrete hosts, to run the program on *)
(* ===================================================================== *)

(** A scripted random source: the state is the list of raw draws still to
    come, each reduced modulo the requested bound; an exhausted script
    draws 0. *)
Definition scripted_randbelow (n : Z) (g : list Z) : Z * list Z :=
  match g with
  | [] => (0, [])
  | x :: g' => (x mod n, g')
  end.

Lemma scripted_randbelow_range (n : Z) (g : list Z) :
  0 < n -> 0 <= fst (scripted_randbelow n g) < n.
Proof.
  intros Hn. destruct g as [|x g']; simpl; [lia|].
  apply Z.mod_pos_bound. exact Hn.
Qed.

Definition scripted : RandomSource :=
  {| rng := list Z;
     randbelow := scripted_randbelow;
     randbelow_range := scripted_randbelow_range |}.

(** A table in place of the forest: fitting yields the table, which
    predicts by hour band; the scaler is the identity. *)
Definition table_predict (f : unit) (x : Z * Z * Z) : float :=
  let '(hour, _, _) := x in
  if rush_hour hour then 250.7%float
  else if night_time hour then (-3.5)%float
  else 120.25%float.

Lemma table_predict_finite (f : unit) (x : Z * Z * Z) :
  is_finite (table_predict f x) = true.
Proof.
  destruct x as [[hour d] w]. unfold table_predict.
  destruct (rush_hour hour); [reflexivity|].
  destruct (night_time hour); reflexivity.
Qed.

Definition table_sklearn : Sklearn :=
  {| forest := unit;
     scaler_params := unit;
     scaled := Z * Z * Z;
     scaler_fit := fun _ => tt;
     scaler_transform := fun _ x => x;
     forest_fit := fun _ _ _ _ => tt;
     forest_predict := table_predict;
     forest_score := fun _ _ _ => 0.9%float;
     train_test_split := fun df => (firstn 800 df, skipn 800 df);
     forest_predict_finite := table_predict_finite |}.

Definition fitted_table : @RandomForestRegressor table_sklearn :=
  @Build_RandomForestRegressor table_sklearn 100 42 (Some tt).

Definition fitted_identity : @StandardScaler table_sklearn := Some tt.

(** A host whose clock stands at the given time, whose dumps are fixed
    strings, and where the INSERT of a row fails as [fails] says. *)
Definition fixed_host (now : datetime) (fails : row -> bool)
  : @Host table_sklearn :=
  {| pickle_dumps_model := fun _ => "forest";
     pickle_loads_model := fun s =>
       if String.eqb s "forest" then Some fitted_table else None;
     pickle_dumps_scaler := fun _ => "scaler";
     pickle_loads_scaler := fun s =>
       if String.eqb s "scaler" then Some fitted_identity else None;
     json_dumps := fun i => trained_at i;
     json_trained_at := fun s =>
       match s with EmptyString => None | _ => Some s end;
     clock := fun _ => now;
     write_fails := fun _ => false;
     dump_fails := fun _ => None;
     makedirs_fails := fun _ => false;
     insert_fails := fails |}.

Definition at_23h : datetime :=
  {| dt_hour := 23; dt_weekday := 1; dt_isoformat := "2024-01-02T23:00:00" |}.

(** Failure injection for the rows of one Location. *)
Definition fails_for (sid : string) (r : row) : bool :=
  match col_sensor_id r with
  | SqlText s => String.eqb s sid
  | _ => false
  end.

Definition sound_host : @Host table_sklearn := fixed_host at_23h (fun _ => false).
Definition faulty_host : @Host table_sklearn :=
  fixed_host at_23h (fails_for "delhi_iffco").

(** A host on which the dump of the model fails after three bytes. *)
Definition short_dump_host : @Host table_sklearn :=
  {| pickle_dumps_model := @pickle_dumps_model table_sklearn sound_host;
     pickle_loads_model := @pickle_loads_model table_sklearn sound_host;
     pickle_dumps_scaler := @pickle_dumps_scaler table_sklearn sound_host;
     pickle_loads_scaler := @pickle_loads_scaler table_sklearn sound_host;
     json_dumps := @json_dumps table_sklearn sound_host;
     json_trained_at := @json_trained_at table_sklearn sound_host;
     clock := fun _ => at_23h;
     write_fails := fun _ => false;
     dump_fails := fun path =>
       if String.eqb path "models/traffic_model.pkl" then Some 3%nat else None;
     makedirs_fails := fun _ => false;
     insert_fails := fun _ => false |}.

(** [TrafficPredictor()] before [load_model], and a predictor trained on
    the table. *)
Definition fresh_predictor : @TrafficPredictor table_sklearn :=
  {| model := @Build_RandomForestRegressor table_sklearn 100 42 None;
     scaler := None;
     is_trained := false;
     model_path := "models/traffic_model.pkl";
     scaler_path := "models/scaler.pkl";
     model_info_path := "models/model_info.json" |}.

Definition trained_predictor : @TrafficPredictor table_sklearn :=
  {| model := fitted_table;
     scaler := fitted_identity;
     is_trained := true;
     model_path := "models/traffic_model.pkl";
     scaler_path := "models/scaler.pkl";
     model_info_path := "models/model_info.json" |}.

(** The world after [init_db], with an empty [models/] directory and the
    lowest draws to come. *)
Definition world0 (p : @TrafficPredictor table_sklearn)
  : @world scripted table_sklearn :=
  {| w_rng := ([] : @rng scripted);
     w_clock := 0;
     w_disk := ∅;
     w_stdout := [];
     w_predictor := p;
     w_db := {| traffic_data := Some []; sqlite_sequence := 0 |};
     w_slept := 0 |}.

(** Another world around the same predictor. *)
Definition world1 (p : @TrafficPredictor table_sklearn)
  : @world scripted table_sklearn :=
  {| w_rng := ([7; 11; 13] : @rng scripted);
     w_clock := 5;
     w_disk := {[ "models/traffic_model.pkl" := Unreadable ]};
     w_stdout := [LogNoModel];
     w_predictor := p;
     w_db := {| traffic_data := None; sqlite_sequence := 0 |};
     w_slept := 60 |}.

(** A [models/] directory with the two dumps and the given info file. *)
Definition saved_disk (info : string) : gmap string file :=
  {[ "models/traffic_model.pkl" := Readable "forest";
     "models/scaler.pkl" := Readable "scaler";
     "models/model_info.json" := Readable info ]}.

(** A reading no sensor produces, for [nth] to fall back on. *)
Definition no_reading : reading :=
  {| sensor_id := EmptyString; timestamp := EmptyString; vehicle_count := 0;
     avg_speed := PyInt 0;
     location := {| lat := 0; lng := 0;
                    name := EmptyString; congestion_type := None |};
     congestion_level := EmptyString |}.

(** The readings of one call at 23:00 when every draw is the lowest of
    its range. *)
Definition night_readings : list reading :=
  fst (@generate_readings scripted at_23h IoTSimulator_sensors []).

Definition at_9h : datetime :=
  {| dt_hour := 9; dt_weekday := 1; dt_isoformat := "2024-01-02T09:00:00" |}.

(** A calendar that keeps the hour and the weekday of a time; it does
    not rewrite the text of the time stamp. *)
Definition hour_calendar_add (t : datetime) (i : Z) : datetime :=
  {| dt_hour := (dt_hour t + i) mod 24;
     dt_weekday := (dt_weekday t + (dt_hour t + i) / 24) mod 7;
     dt_isoformat := dt_isoformat t |}.

Definition hour_calendar : Calendar :=
  {| add_hours := hour_calendar_add;
     add_hours_hour := fun t i _ _ => eq_refl |}.

(* ===================================================================== *)
(** ** The specification's tables *)
(* ===================================================================== *)

(** The congestion class of a Location, and the string the source uses
    for it. *)
Inductive congestion_class : Type := High | Medium | Low.


(** Section 4.1 of the specification, steps 1 and 2: base count and the
    random ranges of the rush and night bands.  The specification gives no
    numbers for midday; [midday_range] lists the ones of the source. *)
Definition spec_base (c : congestion_class) : Z :=
  match c with High => 60 | Medium => 35 | Low => 20 end.
Definition rush_range (c : congestion_class) : Z * Z :=
  match c with High => (100, 180) | Medium => (60, 120) | Low => (30, 80) end.
Definition night_range (c : congestion_class) : Z * Z :=
  match c with High => (15, 35) | Medium => (8, 20) | Low => (3, 12) end.

(** The class the [if]/[elif]/[else] chains of the simulator select for a
    ["congestion_type"] string. *)
Definition class_of (ctype : string) : congestion_class :=
  if String.eqb ctype "high" then High
  else if String.eqb ctype "medium" then Medium
  else Low.

(** Section 4.1, step 5: speed = max(floor, intercept - slope * count +
    jitter), per class. *)
Definition speed_intercept (c : congestion_class) : Z :=
  match c with High => 18 | Medium => 28 | Low => 40 end.
Definition speed_slope (c : congestion_class) : float :=
  match c with High => 0.15 | Medium => 0.18 | Low => 0.22 end%float.
Definition speed_floor (c : congestion_class) : Z :=
  match c with High => 2 | Medium => 5 | Low => 8 end.
Definition speed_jitter (c : congestion_class) : Z * Z :=
  match c with High => (-10, 5) | Medium => (-8, 8) | Low => (-5, 10) end.
Definition spec_speed (c : congestion_class) (count jitter : Z) : pynum :=
  py_round1 (py_max (speed_floor c)
    (speed_expr (speed_intercept c) (speed_slope c) count jitter)).

Definition within (range : Z * Z) (z : Z) : Prop :=
  fst range <= z <= snd range.

(** The least vehicle count of a reading taken at a rush hour, and the
    largest of one taken at night, by class: base plus the least rush
    draw, less the jitter of 15; the largest night draw times 1.4, plus
    the jitter. *)
Definition rush_least (c : congestion_class) : Z :=
  match c with High => 145 | Medium => 80 | Low => 35 end.
Definition night_most (c : congestion_class) : Z :=
  match c with High => 64 | Medium => 43 | Low => 31 end.

(* ===================================================================== *)
(** ** Properties of the simulator *)
(* ===================================================================== *)

Lemma Zrange_forallb_spec (f : Z -> bool) (n : nat) :
  forall lo, Zrange_forallb f lo n = true ->
  forall z, lo <= z < lo + Z.of_nat n -> f z = true.
Proof.
  induction n as [|k IH]; intros lo Hall z Hz.
  - simpl in Hz. lia.
  - simpl in Hall. apply andb_true_iff in Hall as [H0 Hk].
    destruct (Z.eq_dec z lo) as [->|Hne]; [exact H0|].
    apply (IH (lo + 1) Hk). lia.
Qed.



Lemma rush_hour_spec (hour : Z) :
  rush_hour hour = true <-> (7 <= hour <= 11 \/ 16 <= hour <= 21).
Proof. unfold rush_hour. lia. Qed.



Section SimulatorProperties.

Context `{RandomSource}.

Lemma randint_range (a b : Z) (g : rng) :
  a <= b -> a <= fst (randint a b g) <= b.
Proof.
  intros Hab. unfold randint, rbind, rret.
  pose proof (randbelow_range (b - a + 1) g ltac:(lia)) as Hr.
  destruct (randbelow (b - a + 1) g) as [r g']. simpl in *. lia.
Qed.

(** A band that adds a draw of [lo, hi] to the running count. *)
Lemma add_draw_range (lo hi base : Z) (g : rng) :
  lo <= hi ->
  exists r, lo <= r <= hi /\
    fst (rbind (randint lo hi) (fun r => rret (base + r)) g) = base + r.
Proof.
  intros Hle. pose proof (randint_range lo hi g Hle) as Hr.
  unfold rbind at 1. destruct (randint lo hi g) as [r g'].
  exists r. simpl in *. split; [lia|reflexivity].
Qed.


(** The running count after the time-of-day step. *)
Lemma time_of_day_bound (ctype : string) (hour : Z) (g : rng) :
  3 <= fst (time_of_day ctype hour (base_vehicles_of ctype) g) <= 240.
Proof.
  unfold time_of_day, base_vehicles_of.
  repeat match goal with
         | |- context [if ?b then _ else _] => destruct b
         end;
    first
      [ match goal with
        | |- context [rbind (randint ?lo ?hi) (fun r => rret (?b + r)) g] =>
            destruct (add_draw_range lo hi b g ltac:(lia)) as (r & Hr & ->); lia
        end
      | match goal with
        | |- context [randint ?lo ?hi g] =>
            pose proof (randint_range lo hi g ltac:(lia)); lia
        end
      | cbn; lia ].
Qed.

(** [int(base_vehicles * 1.4)], [... * 1.2] and [... * 1.1] on every count
    the time-of-day step can produce. *)
Lemma multiplier_enum :
  Zrange_forallb
    (fun b =>
       let ok m :=
         let v := F64.trunc (F64.of_Z b * m)%float in
         (3 <=? v) && (v <=? 336) in
       ok 1.4%float && ok 1.2%float && ok 1.1%float)
    3 238 = true.
Proof. vm_compute. reflexivity. Qed.

Lemma city_multiplier_bound (sid : string) (b : Z) :
  3 <= b <= 240 -> 3 <= city_multiplier sid b <= 336.
Proof.
  intros Hb.
  pose proof (Zrange_forallb_spec _ _ _ multiplier_enum b ltac:(lia)) as E.
  cbv beta zeta in E.
  repeat (apply andb_true_iff in E; destruct E as [E ?]).
  unfold city_multiplier.
  repeat match goal with
         | |- context [if ?c then _ else _] => destruct c
         end; lia.
Qed.



(** What [speed_of] returns, in the terms of the specification's table. *)
Lemma speed_of_spec (ctype : string) (count : Z) (g : rng) :
  exists jitter, within (speed_jitter (class_of ctype)) jitter /\
    py_round1 (fst (speed_of ctype count g)) = spec_speed (class_of ctype) count jitter.
Proof.
  unfold speed_of, class_of, spec_speed.
  destruct (String.eqb ctype "high");
    [|destruct (String.eqb ctype "medium")];
    match goal with
    | |- context [randint ?lo ?hi] =>
        pose proof (randint_range lo hi g ltac:(lia)) as Hr;
        unfold rbind; destruct (randint lo hi g) as [j g'];
        exists j; split; [unfold within; cbn in *; lia | reflexivity]
    end.
Qed.

(** The shape of one reading: the count the simulator computed before the
    clamp, and the jitter of the speed. *)
Lemma sensor_reading_shape (current_time : datetime) (sid : string)
    (loc : Location) (g : rng) :
  let r := fst (sensor_reading current_time sid loc g) in
  let c := class_of (default "medium" (congestion_type loc)) in
  sensor_id r = sid /\ location r = loc /\
  exists count jitter,
    -12 <= count <= 351 /\
    within (speed_jitter c) jitter /\
    vehicle_count r = Z.max 0 count /\
    congestion_level r = level_of count /\
    avg_speed r = spec_speed c count jitter.
Proof.
  intros r c. subst r c. unfold sensor_reading, rbind, rret.
  set (ctype := default "medium" (congestion_type loc)).
  pose proof (time_of_day_bound ctype (dt_hour current_time) g) as Hb.
  destruct (time_of_day ctype (dt_hour current_time) (base_vehicles_of ctype) g)
    as [b g1]. cbn [fst] in Hb.
  pose proof (city_multiplier_bound sid b Hb) as Hm.
  pose proof (randint_range (-15) 15 g1 ltac:(lia)) as Hj.
  destruct (randint (-15) 15 g1) as [j g2]. cbn [fst] in Hj.
  destruct (speed_of_spec ctype (city_multiplier sid b + j) g2)
    as (jitter & Hjit & Hspeed).
  destruct (speed_of ctype (city_multiplier sid b + j) g2) as [sp g3].
  cbn [fst] in Hspeed. cbn.
  split; [reflexivity|]. split; [reflexivity|].
  exists (city_multiplier sid b + j), jitter.
  split; [lia|]. split; [exact Hjit|].
  split; [reflexivity|]. split; [reflexivity|exact Hspeed].
Qed.

(** Every element of the returned list is the reading of one sensor. *)
Lemma generate_readings_In (current_time : datetime)
    (sensors : list (string * Location)) :
  forall (g : rng) (r : reading),
    In r (fst (generate_readings current_time sensors g)) ->
    exists sid loc g0,
      In (sid, loc) sensors /\ r = fst (sensor_reading current_time sid loc g0).
Proof.
  induction sensors as [|[sid loc] rest IH]; intros g r Hin.
  - destruct Hin.
  - cbn [generate_readings] in Hin. unfold rbind at 1 in Hin.
    destruct (sensor_reading current_time sid loc g) as [r0 g1] eqn:E0.
    unfold rbind at 1 in Hin.
    destruct (generate_readings current_time rest g1) as [rs g2] eqn:E1.
    cbn in Hin. destruct Hin as [<-|Hin].
    + exists sid, loc, g. split; [left; reflexivity|]. rewrite E0. reflexivity.
    + destruct (IH g1 r) as (sid' & loc' & g0 & Hs & Hr).
      { rewrite E1. exact Hin. }
      exists sid', loc', g0. split; [right; exact Hs|exact Hr].
Qed.

Lemma level_of_clamped (count : Z) :
  level_of (Z.max 0 count) = level_of count.
Proof.
  unfold level_of.
  destruct (Z.gtb_spec (Z.max 0 count) 80), (Z.gtb_spec count 80); try lia;
    try reflexivity.
  destruct (Z.gtb_spec (Z.max 0 count) 40), (Z.gtb_spec count 40); try lia;
    reflexivity.
Qed.

Lemma reading_level (current_time : datetime)
    (sensors : list (string * Location)) (g : rng) (r : reading) :
  In r (fst (generate_readings current_time sensors g)) ->
  congestion_level r = level_of (vehicle_count r).
Proof.
  intros Hin.
  destruct (generate_readings_In _ _ _ _ Hin) as (sid & loc & g0 & _ & ->).
  destruct (sensor_reading_shape current_time sid loc g0)
    as (_ & _ & count & jitter & _ & _ & Hv & Hl & _).
  rewrite Hl, Hv. symmetry. apply level_of_clamped.
Qed.

(** The readings come one per sensor, in the order of the dict. *)
Lemma generate_readings_ids (current_time : datetime)
    (sensors : list (string * Location)) :
  forall g : rng,
    map sensor_id (fst (generate_readings current_time sensors g))
    = map fst sensors.
Proof.
  induction sensors as [|[sid loc] rest IH]; intros g; [reflexivity|].
  cbn [generate_readings]. unfold rbind at 1.
  pose proof (sensor_reading_shape current_time sid loc g) as (Hid & _).
  destruct (sensor_reading current_time sid loc g) as [r0 g1].
  unfold rbind at 1. specialize (IH g1).
  destruct (generate_readings current_time rest g1) as [rs g2].
  cbn in *. rewrite Hid, IH. reflexivity.
Qed.

(** C8.  The congestion level of every reading the simulator produces is
    decided by the reading's vehicle count alone: High above 80, Medium
    above 40, Low otherwise; so two readings with the same vehicle count,
    whatever their locations, classes, times and random draws, carry the
    same level. *)
Theorem congestion_level_by_count
    (t1 t2 : datetime) (sensors1 sensors2 : list (string * Location))
    (g1 g2 : rng) (r1 r2 : reading) :
  In r1 (fst (generate_readings t1 sensors1 g1)) ->
  In r2 (fst (generate_readings t2 sensors2 g2)) ->
  congestion_level r1 =
    (if vehicle_count r1 >? 80 then "High"
     else if vehicle_count r1 >? 40 then "Medium" else "Low") /\
  (vehicle_count r1 = vehicle_count r2 ->
   congestion_level r1 = congestion_level r2).
Proof.
  intros H1 H2.
  pose proof (reading_level _ _ _ _ H1) as E1.
  pose proof (reading_level _ _ _ _ H2) as E2.
  split; [exact E1|].
  intros Hv. rewrite E1, E2, Hv. reflexivity.
Qed.


End SimulatorProperties.

Lemma congestion_level_by_count_witness :
  let r1 := nth 2 night_readings no_reading in
  let r2 := nth 3 night_readings no_reading in
  (congestion_type (location r1) = Some "medium" /\
   congestion_type (location r2) = Some "low") /\
  congestion_level r1 =
    (if vehicle_count r1 >? 80 then "High"
     else if vehicle_count r1 >? 40 then "Medium" else "Low") /\
  (vehicle_count r1 = vehicle_count r2 ->
   congestion_level r1 = congestion_level r2).
Proof.
  intros r1 r2. split; [split; reflexivity|].
  apply (@congestion_level_by_count scripted at_23h at_23h
           IoTSimulator_sensors IoTSimulator_sensors [] [] r1 r2).
  - vm_compute. do 2 right. left. reflexivity.
  - vm_compute. do 3 right. left. reflexivity.
Defined.



(* ===================================================================== *)
(** ** Properties of the predictor *)
(* ===================================================================== *)

Section PipelineProperties.

Context `{RandomSource} `{Host}.

(** The programs are unfolded down to the primitives; the two generators
    stay folded. *)
Opaque generate_training_data generate_readings.

Ltac run_monad :=
  cbv [bind try_except get_self set_self gets modify ret raise
       print time_sleep datetime_now draw path_exists write_file].

(** [save_model] returns, whatever the writes do; it prints one line and
    touches nothing but the disk and the clock. *)
Lemma save_model_spec (w : world) :
  exists b w' line,
    save_model w = (Ok b, w') /\
    w_predictor w' = w_predictor w /\ w_db w' = w_db w /\
    w_rng w' = w_rng w /\ w_slept w' = w_slept w /\
    w_stdout w' = (w_stdout w ++ [line])%list /\
    training_runs [line] = 0%nat /\ ticks_logged [line] = 0%nat.
Proof.
  unfold save_model. run_monad.
  repeat (cbn;
          match goal with
          | |- context [if write_fails ?p then _ else _] =>
              destruct (write_fails p)
          | |- context [match dump_fails ?p with _ => _ end] =>
              destruct (dump_fails p)
          end);
    cbn; eexists _, _, _; repeat split; reflexivity.
Qed.

(** A training run always completes; it leaves the predictor trained and
    fitted, prints "Training ML model..." once, and does not touch the
    store. *)
Lemma train_model_spec (w : world) :
  exists score w' sc f,
    train_model w = (Ok score, w') /\
    is_trained (w_predictor w') = true /\
    scaler (w_predictor w') = Some sc /\
    estimators_ (model (w_predictor w')) = Some f /\
    w_db w' = w_db w /\ w_slept w' = w_slept w /\
    training_runs (w_stdout w') = S (training_runs (w_stdout w)) /\
    ticks_logged (w_stdout w') = ticks_logged (w_stdout w).
Proof.
  unfold train_model. run_monad. cbn.
  destruct (generate_training_data 1000 (w_rng w)) as [df g'].
  destruct (train_test_split df) as [train test]. cbn.
  match goal with
  | |- context [save_model ?w0] =>
      destruct (save_model_spec w0)
        as (b & w1 & line & -> & Hp & Hdb & _ & Hsl & Hout & Htr & Htk)
  end.
  cbn in *. eexists _, _, _, _. split; [reflexivity|].
  rewrite Hp, Hdb, Hsl, Hout. cbn.
  unfold training_runs, ticks_logged in *.
  rewrite !List.filter_app, !length_app in *. cbn in *.
  repeat split; try reflexivity; lia.
Qed.

(** In the Trained state [predict] is [infer] on the predictor as it is:
    nothing is drawn, printed, written or retrained. *)
Lemma predict_trained (hour day_of_week weather : Z) (w : world) :
  is_trained (w_predictor w) = true ->
  predict hour day_of_week weather w =
    (infer (w_predictor w) hour day_of_week weather, w).
Proof.
  intros Ht. unfold predict, infer. run_monad. rewrite Ht.
  destruct (scaler (w_predictor w)) as [sc|]; [|reflexivity].
  destruct (estimators_ (model (w_predictor w))) as [f|]; [|reflexivity].
  destruct (is_finite _); reflexivity.
Qed.

(** In the Untrained state [predict] is a training run followed by
    [infer] on the predictor the run leaves. *)
Lemma predict_untrained (hour day_of_week weather : Z) (w : world) :
  is_trained (w_predictor w) = false ->
  predict hour day_of_week weather w =
    (infer (w_predictor (snd (train_model w))) hour day_of_week weather,
     snd (train_model w)).
Proof.
  intros Ht. unfold predict, infer. run_monad. rewrite Ht.
  destruct (train_model_spec w) as (score & w' & sc & f & -> & _ & Hs & Hf & _).
  cbn. rewrite Hs, Hf.
  destruct (is_finite _); reflexivity.
Qed.

Lemma predict_untrained_returns
    (hour day_of_week weather : Z) (w : world) :
  is_trained (w_predictor w) = false ->
  exists v w',
    predict hour day_of_week weather w = (Ok v, w') /\
    w' = snd (train_model w) /\
    infer (w_predictor w') hour day_of_week weather = Ok v /\
    is_trained (w_predictor w') = true /\
    training_runs (w_stdout w') = S (training_runs (w_stdout w)).
Proof.
  intros Hu. rewrite (predict_untrained _ _ _ _ Hu).
  destruct (train_model_spec w)
    as (score & w' & sc & f & E & Ht & Hs & Hf & _ & _ & Hruns & _).
  rewrite E. cbn [snd].
  assert (Hv : exists v, infer (w_predictor w') hour day_of_week weather = Ok v).
  { unfold infer. rewrite Hs, Hf, forest_predict_finite. eexists. reflexivity. }
  destruct Hv as [v Hv]. exists v, w'. rewrite Hv.
  repeat split; assumption.
Qed.

(** C3.  Called in the Untrained state, [predict] runs one full training
    run first ([train_model], to its end), computes the prediction from
    the artifacts that run fitted, returns it as a value (no exception
    reaches the caller), and leaves the predictor Trained; called in the
    Trained state it changes nothing, so it does not retrain. *)
Theorem predict_trains_on_first_use
    (hour day_of_week weather : Z) (w : world) :
  (is_trained (w_predictor w) = false ->
   exists v w',
     predict hour day_of_week weather w = (Ok v, w') /\
     w' = snd (train_model w) /\
     infer (w_predictor w') hour day_of_week weather = Ok v /\
     is_trained (w_predictor w') = true /\
     training_runs (w_stdout w') = S (training_runs (w_stdout w))) /\
  (is_trained (w_predictor w) = true ->
   snd (predict hour day_of_week weather w) = w /\
   training_runs (w_stdout (snd (predict hour day_of_week weather w)))
     = training_runs (w_stdout w)).
Proof.
  split.
  - apply predict_untrained_returns.
  - intros Ht. rewrite (predict_trained _ _ _ _ Ht). split; reflexivity.
Qed.

(** C4.  Two calls of [predict] with the same arguments against the same
    trained artifact (the same fitted scaler and the same fitted forest),
    in whatever worlds, return the same integer; and a call leaves its
    world as it was, so a repeated call is such a call. *)
Theorem predict_deterministic
    (hour day_of_week weather : Z) (w1 w2 : world)
    (sc : scaler_params) (f : forest) :
  is_trained (w_predictor w1) = true ->
  is_trained (w_predictor w2) = true ->
  scaler (w_predictor w1) = Some sc ->
  scaler (w_predictor w2) = Some sc ->
  estimators_ (model (w_predictor w1)) = Some f ->
  estimators_ (model (w_predictor w2)) = Some f ->
  exists v,
    predict hour day_of_week weather w1 = (Ok v, w1) /\
    predict hour day_of_week weather w2 = (Ok v, w2).
Proof.
  intros Ht1 Ht2 Hs1 Hs2 Hf1 Hf2.
  rewrite (predict_trained _ _ _ _ Ht1), (predict_trained _ _ _ _ Ht2).
  unfold infer. rewrite Hs1, Hs2, Hf1, Hf2, forest_predict_finite.
  eexists. split; reflexivity.
Qed.

(** A value [predict] returns is the estimator's output for the scaled
    features, truncated and then clamped at 0. *)
Lemma infer_value (p : TrafficPredictor) (hour day_of_week weather v : Z) :
  infer p hour day_of_week weather = Ok v ->
  exists sc f,
    scaler p = Some sc /\ estimators_ (model p) = Some f /\
    v = Z.max 0 (F64.trunc
          (forest_predict f (scaler_transform sc (hour, day_of_week, weather)))) /\
    0 <= v.
Proof.
  unfold infer. intros E.
  destruct (scaler p) as [sc|]; [|discriminate].
  destruct (estimators_ (model p)) as [f|]; [|discriminate].
  destruct (is_finite _); [|discriminate].
  injection E as <-. exists sc, f. repeat split; lia.
Qed.

Lemma predict_value (hour day_of_week weather v : Z) (w w' : world) :
  predict hour day_of_week weather w = (Ok v, w') ->
  infer (w_predictor w') hour day_of_week weather = Ok v.
Proof.
  intros E. destruct (is_trained (w_predictor w)) eqn:Ht.
  - rewrite (predict_trained _ _ _ _ Ht) in E. injection E as E <-. exact E.
  - rewrite (predict_untrained _ _ _ _ Ht) in E. injection E as E <-. exact E.
Qed.

(** C5.  Whatever the feature tuple, [predict] returns an integer that
    is the raw output of the estimator truncated toward zero and then
    clamped at 0, hence non-negative; and it does return one whenever a
    predictor marked trained holds fitted artifacts. *)
Theorem predict_nonnegative (hour day_of_week weather : Z) (w : world) :
  (is_trained (w_predictor w) = true ->
   scaler (w_predictor w) <> None /\
   estimators_ (model (w_predictor w)) <> None) ->
  exists v w' sc f,
    predict hour day_of_week weather w = (Ok v, w') /\
    scaler (w_predictor w') = Some sc /\
    estimators_ (model (w_predictor w')) = Some f /\
    v = Z.max 0 (F64.trunc
          (forest_predict f (scaler_transform sc (hour, day_of_week, weather)))) /\
    0 <= v.
Proof.
  intros Hfit.
  assert (Hret : exists v w', predict hour day_of_week weather w = (Ok v, w')).
  { destruct (is_trained (w_predictor w)) eqn:Ht.
    - destruct (Hfit eq_refl) as [Hs Hf].
      rewrite (predict_trained _ _ _ _ Ht). unfold infer.
      destruct (scaler (w_predictor w)) as [sc|]; [|contradiction].
      destruct (estimators_ (model (w_predictor w))) as [f|]; [|contradiction].
      rewrite forest_predict_finite. eexists _, _. reflexivity.
    - destruct (predict_untrained_returns hour day_of_week weather w Ht)
        as (v & w' & E & _). exists v, w'. exact E. }
  destruct Hret as (v & w' & E).
  destruct (infer_value _ _ _ _ _ (predict_value _ _ _ _ _ _ E))
    as (sc & f & Hs & Hf & Hv & Hpos).
  exists v, w', sc, f. repeat split; assumption.
Qed.

(** What [load_model] does for the model and the scaler file: it never
    raises; when one of the two is absent, unreadable or not a dump, it
    returns [False] and leaves [is_trained] as it was (Untrained, for a
    fresh predictor); it returns [True] only with the predictor Trained and
    holding the estimator and the scaler restored from the two files.  The
    info file is another matter: see [load_model_false_yet_trained]. *)
Lemma load_model_outcomes (w : world) :
  let p := w_predictor w in
  let m := restorable pickle_loads_model (w_disk w) (model_path p) in
  let s := restorable pickle_loads_scaler (w_disk w) (scaler_path p) in
  exists b w',
    load_model w = (Ok b, w') /\
    (m = None \/ s = None ->
     b = false /\ is_trained (w_predictor w') = is_trained p) /\
    (b = true ->
     is_trained (w_predictor w') = true /\
     m = Some (model (w_predictor w')) /\
     s = Some (scaler (w_predictor w'))) /\
    (is_trained p = false -> is_trained (w_predictor w') = true ->
     m = Some (model (w_predictor w')) /\
     s = Some (scaler (w_predictor w'))).
Proof.
  intros p m s. subst p m s.
  unfold load_model, unpickle, read_file, restorable. run_monad. cbn.
  destruct (w_disk w !! model_path (w_predictor w)) as [[bm|]|] eqn:Em;
    destruct (w_disk w !! scaler_path (w_predictor w)) as [[bs|]|] eqn:Es;
    cbn; rewrite ?Em, ?Es; cbn;
    try (eexists _, _; split; [reflexivity|]; cbn;
         repeat split; intros; try reflexivity; try discriminate;
         intuition congruence).
  all: destruct (pickle_loads_model bm) as [m|] eqn:Lm; cbn; rewrite ?Es; cbn;
    try (eexists _, _; split; [reflexivity|]; cbn;
         repeat split; intros; try reflexivity; try discriminate;
         intuition congruence).
  all: destruct (pickle_loads_scaler bs) as [s|] eqn:Ls; cbn;
    try (eexists _, _; split; [reflexivity|]; cbn;
         repeat split; intros; try reflexivity; try discriminate;
         intuition congruence).
  all: destruct (w_disk w !! model_info_path (w_predictor w)) as [[bi|]|] eqn:Ei;
    cbn; rewrite ?Ei; cbn;
    try destruct (json_trained_at bi); cbn;
    eexists _, _; (split; [reflexivity|]); cbn;
    repeat split; intros; try reflexivity; try discriminate;
    intuition congruence.
Qed.

(** The info file: when both dumps are restored and the info file is
    there but cannot be opened or is not JSON, [load_model] has marked the
    predictor trained before it reads the info file; the exception takes
    it to the handler, which announces a new training and returns [False].
    The predictor stays trained, with the restored estimator and scaler. *)
Lemma load_model_bad_info_trained (w : world) (m : RandomForestRegressor)
    (s : StandardScaler) (f : file) :
  let p := w_predictor w in
  restorable pickle_loads_model (w_disk w) (model_path p) = Some m ->
  restorable pickle_loads_scaler (w_disk w) (scaler_path p) = Some s ->
  w_disk w !! model_info_path p = Some f ->
  match f with
  | Readable bytes => json_trained_at bytes = None
  | Unreadable => True
  end ->
  exists e,
    load_model w =
      (Ok false,
       set_stdout (w_stdout w ++ [LogLoadError e])
         (set_predictor (set_is_trained true (set_scaler s (set_model m p))) w)).
Proof.
  intros p Hm Hs Hi Hbad. subst p. unfold restorable in Hm, Hs.
  destruct (w_disk w !! model_path (w_predictor w)) as [[bm|]|] eqn:Em;
    try discriminate.
  destruct (w_disk w !! scaler_path (w_predictor w)) as [[bs|]|] eqn:Es;
    try discriminate.
  unfold load_model, unpickle, read_file. run_monad. cbn.
  rewrite Em, Es. cbn. rewrite Em. cbn. rewrite Hm. cbn. rewrite Es. cbn.
  rewrite Hs. cbn. rewrite Hi. cbn. rewrite Hi.
  destruct f as [bytes|]; [rewrite Hbad|]; cbn; eexists; reflexivity.
Qed.

(* ===================================================================== *)
(** ** Properties of the store and of the collector loop *)
(* ===================================================================== *)

(** [predict] does not touch the store, does not sleep, and prints no
    line of the collector loop. *)
Lemma predict_frame (hour day_of_week weather : Z) (w : world) :
  let w' := snd (predict hour day_of_week weather w) in
  w_db w' = w_db w /\ w_slept w' = w_slept w /\
  ticks_logged (w_stdout w') = ticks_logged (w_stdout w).
Proof.
  destruct (is_trained (w_predictor w)) eqn:Ht.
  - rewrite (predict_trained _ _ _ _ Ht). cbn. repeat split.
  - rewrite (predict_untrained _ _ _ _ Ht). cbv zeta. cbn [snd].
    destruct (train_model_spec w)
      as (score & w' & sc & f & -> & _ & _ & _ & Hdb & Hsl & _ & Htk).
    cbn [snd]. repeat split; assumption.
Qed.

Opaque predict.

(** The [for] loop of [store_traffic_data]: whether it completes or
    raises, the file is as it was; if it completes, the connection holds
    one new row per record, in order, each with the prediction computed
    for it. *)
Lemma store_loop_spec (data : list reading) :
  forall (conn : connection) (w : world),
    let (res, w') := store_loop data conn w in
    w_db w' = w_db w /\ w_slept w' = w_slept w /\
    ticks_logged (w_stdout w') = ticks_logged (w_stdout w) /\
    match res with
    | Raise _ => True
    | Ok conn' =>
        exists new,
          map col_sensor_id new = map (fun r => SqlText (sensor_id r)) data /\
          Forall has_prediction new /\
          traffic_data (conn_view conn') =
            option_map (fun rows => (rows ++ new)%list)
                       (traffic_data (conn_view conn))
    end.
Proof.
  induction data as [|record rest IH]; intros conn w.
  - cbn. repeat split. exists []. repeat split; [constructor|].
    destruct (traffic_data (conn_view conn)); cbn; [rewrite app_nil_r|]; reflexivity.
  - cbn [store_loop]. run_monad. cbn.
    destruct (randint 0 2 (w_rng w)) as [weather g'].
    match goal with
    | |- context [predict ?h ?d ?x ?w0] =>
        pose proof (predict_frame h d x w0) as (Hdb & Hsl & Htk);
        destruct (predict h d x w0) as [[pf|e] w1] eqn:Ep
    end; cbn [snd w_db w_slept w_stdout set_rng set_clock] in Hdb, Hsl, Htk;
      [|repeat split; assumption].
    destruct (infer_value _ _ _ _ _ (predict_value _ _ _ _ _ _ Ep))
      as (_ & _ & _ & _ & _ & Hpos).
    unfold cursor_execute_insert.
    destruct (traffic_data (conn_view conn)) as [rows|] eqn:Et;
      [|cbn; repeat split; assumption].
    match goal with
    | |- context [insert_fails ?r] => destruct (insert_fails r)
    end; [cbn; repeat split; assumption|].
    cbn.
    match goal with
    | |- context [store_loop rest ?c ?w0] =>
        specialize (IH c w0); destruct (store_loop rest c w0) as [res w2]
    end.
    destruct IH as (Hdb2 & Hsl2 & Htk2 & Hres).
    split; [congruence|]. split; [congruence|]. split; [congruence|].
    destruct res as [conn'|e]; [|exact I].
    destruct Hres as (new & Hids & Hall & Ht). cbn in Ht.
    match type of Ht with
    | context [((rows ++ [?r]) ++ new)%list] => exists (r :: new)
    end.
    split; [cbn; rewrite Hids; reflexivity|].
    split.
    + constructor; [|exact Hall]. exists pf. split; [reflexivity|exact Hpos].
    + rewrite Ht. cbn. rewrite <- app_assoc. reflexivity.
Qed.

(** [store_traffic_data], whole. *)
Lemma store_traffic_data_spec (data : list reading) (w : world) :
  let (res, w') := store_traffic_data data w in
  w_slept w' = w_slept w /\
  ticks_logged (w_stdout w') = ticks_logged (w_stdout w) /\
  match res with
  | Raise _ => w_db w' = w_db w
  | Ok _ =>
      exists new,
        map col_sensor_id new = map (fun r => SqlText (sensor_id r)) data /\
        Forall has_prediction new /\
        traffic_data (w_db w') =
          option_map (fun rows => (rows ++ new)%list) (traffic_data (w_db w))
  end.
Proof.
  unfold store_traffic_data, sqlite3_connect, conn_commit. run_monad.
  pose proof (store_loop_spec data {| conn_view := w_db w |} w) as Hl.
  destruct (store_loop data {| conn_view := w_db w |} w) as [[conn'|e] w1];
    destruct Hl as (Hdb & Hsl & Htk & Hres); cbn.
  - split; [exact Hsl|]. split; [exact Htk|]. exact Hres.
  - split; [exact Hsl|]. split; [exact Htk|]. exact Hdb.
Qed.

(** The invariant of the table: every stored row carries a prediction.
    [store_traffic_data] keeps it, whether it commits or raises. *)
Lemma store_keeps_predictions (data : list reading) (w : world) :
  Forall has_prediction (stored_rows w) ->
  Forall has_prediction (stored_rows (snd (store_traffic_data data w))).
Proof.
  intros Hold.
  pose proof (store_traffic_data_spec data w) as Hs.
  destruct (store_traffic_data data w) as [[u|e] w'];
    destruct Hs as (_ & _ & Hres); cbn [snd]; unfold stored_rows in *.
  - destruct Hres as (new & _ & Hall & ->).
    destruct (traffic_data (w_db w)) as [rows|]; cbn in *; [|constructor].
    apply Forall_app. split; assumption.
  - rewrite Hres. exact Hold.
Qed.

(** C2.  The store write of a tick is all-or-none: [store_traffic_data]
    commits once, after the last record.  If anything raises before that
    (a prediction or an INSERT), the stored table is exactly what it was;
    if nothing raises, the table gains one row per record of the tick,
    in order. *)
Theorem store_traffic_data_all_or_none (data : list reading) (w : world) :
  match store_traffic_data data w with
  | (Raise _, w') => w_db w' = w_db w
  | (Ok _, w') =>
      exists new,
        length new = length data /\
        map col_sensor_id new = map (fun r => SqlText (sensor_id r)) data /\
        traffic_data (w_db w') =
          option_map (fun rows => (rows ++ new)%list) (traffic_data (w_db w))
  end.
Proof.
  pose proof (store_traffic_data_spec data w) as Hs.
  destruct (store_traffic_data data w) as [[u|e] w'];
    destruct Hs as (_ & _ & Hres); [|exact Hres].
  destruct Hres as (new & Hids & _ & Ht). exists new.
  split; [|split; assumption].
  rewrite <- (length_map col_sensor_id new), Hids, length_map. reflexivity.
Qed.


(** A failure injected for the rows of one Location makes the loop over
    a tick that samples this Location raise. *)
Lemma store_loop_raises_on_fault (sid : string) :
  (forall r, col_sensor_id r = SqlText sid -> insert_fails r = true) ->
  forall data, In sid (map sensor_id data) ->
  forall conn w, exists e w', store_loop data conn w = (Raise e, w').
Proof.
  intros Hfault data. induction data as [|record rest IH]; intros Hin conn w.
  - destruct Hin.
  - cbn [store_loop]. run_monad. cbn.
    destruct (randint 0 2 (w_rng w)) as [weather g'].
    match goal with
    | |- context [predict ?h ?d ?x ?w0] =>
        destruct (predict h d x w0) as [[pf|e] w1]
    end; [|eexists _, _; reflexivity].
    unfold cursor_execute_insert.
    destruct (traffic_data (conn_view conn)) as [rows|];
      [|cbn; eexists _, _; reflexivity].
    match goal with
    | |- context [insert_fails ?r] =>
        destruct (insert_fails r) eqn:Ef; [cbn; eexists _, _; reflexivity|];
        destruct (string_dec (sensor_id record) sid) as [Heq|Hne];
        [rewrite (Hfault r) in Ef; [discriminate|cbn; rewrite Heq; reflexivity]|]
    end.
    cbn. apply IH. cbn in Hin. destruct Hin as [Hin|Hin]; [contradiction|exact Hin].
Qed.

Opaque store_traffic_data.

Lemma generate_sensor_data_spec (w : world) :
  exists data w1,
    generate_sensor_data w = (Ok data, w1) /\
    w_db w1 = w_db w /\ w_slept w1 = w_slept w /\
    w_stdout w1 = w_stdout w /\
    map sensor_id data = map fst IoTSimulator_sensors.
Proof.
  unfold generate_sensor_data. run_monad. cbn.
  pose proof (generate_readings_ids (clock (w_clock w)) IoTSimulator_sensors
                (w_rng w)) as Hids.
  destruct (generate_readings (clock (w_clock w)) IoTSimulator_sensors (w_rng w))
    as [data g']. cbn [fst] in Hids.
  eexists _, _. split; [reflexivity|]. cbn. repeat split. exact Hids.
Qed.

(** One [try] block: it ends with the sleep and the "Data collected"
    line, or raises before both with the file as it was. *)
Lemma tick_body_spec (w : world) :
  let (res, w') := tick_body w in
  match res with
  | Ok _ =>
      w_slept w' = w_slept w + 30 /\
      ticks_logged (w_stdout w') = S (ticks_logged (w_stdout w))
  | Raise _ =>
      w_db w' = w_db w /\ w_slept w' = w_slept w /\
      ticks_logged (w_stdout w') = ticks_logged (w_stdout w)
  end.
Proof.
  unfold tick_body. unfold bind at 1.
  destruct (generate_sensor_data_spec w)
    as (data & w1 & -> & Hdb1 & Hsl1 & Hout1 & _).
  unfold bind at 1.
  pose proof (store_traffic_data_spec data w1) as Hs.
  destruct (store_traffic_data data w1) as [[u|e] w2];
    destruct Hs as (Hsl2 & Htk2 & Hres).
  - run_monad. cbn. unfold ticks_logged in *.
    rewrite List.filter_app, length_app. cbn.
    rewrite Hsl2, Hsl1, Htk2, Hout1. split; lia.
  - rewrite Hres, Hdb1, Hsl2, Hsl1, Htk2, Hout1. repeat split.
Qed.

(** One turn of the loop always completes, with its sleep and one line of
    output; a turn whose [try] block raised leaves the file as it was. *)
Lemma collection_tick_spec (w : world) :
  exists w',
    collection_tick w = (Ok tt, w') /\
    w_slept w' = w_slept w + 30 /\
    ticks_logged (w_stdout w') = S (ticks_logged (w_stdout w)) /\
    (forall e w1, tick_body w = (Raise e, w1) ->
       w_db w' = w_db w /\
       w_stdout w' = (w_stdout w1 ++ [LogCollectionError e])%list).
Proof.
  unfold collection_tick, try_except.
  pose proof (tick_body_spec w) as Hb.
  destruct (tick_body w) as [[[]|e] w1].
  - exists w1. destruct Hb as (Hsl & Htk).
    split; [reflexivity|]. split; [exact Hsl|]. split; [exact Htk|].
    intros e' w1' E. discriminate E.
  - destruct Hb as (Hdb & Hsl & Htk). run_monad. cbn.
    eexists. split; [reflexivity|]. cbn. unfold ticks_logged in *.
    rewrite List.filter_app, length_app. cbn.
    split; [lia|]. split; [lia|].
    intros e' w1' E. injection E as <- <-. split; [exact Hdb|reflexivity].
Qed.

(** However the turns end, the loop runs every one of them. *)
Lemma data_collection_job_spec (n : nat) :
  forall w, exists w',
    data_collection_job n w = (Ok tt, w') /\
    w_slept w' = w_slept w + 30 * Z.of_nat n /\
    ticks_logged (w_stdout w') = (ticks_logged (w_stdout w) + n)%nat.
Proof.
  induction n as [|k IH]; intros w.
  - exists w. cbn. repeat split; lia.
  - cbn [data_collection_job]. unfold bind.
    destruct (collection_tick_spec w) as (w1 & -> & Hsl & Htk & _).
    destruct (IH w1) as (w2 & -> & Hsl2 & Htk2).
    exists w2. split; [reflexivity|]. split; lia.
Qed.

Transparent store_traffic_data.

(** The invariant holds once [init_db] has created the table, and every
    turn of the collector loop keeps it: at no time does the table hold a
    row without a prediction. *)
Lemma init_db_rows (w : world) :
  traffic_data (w_db w) = None -> stored_rows (snd (init_db w)) = [].
Proof.
  intros Hnone. unfold init_db, stored_rows. run_monad. cbn.
  rewrite Hnone. reflexivity.
Qed.

Lemma collection_tick_keeps_predictions (w : world) :
  Forall has_prediction (stored_rows w) ->
  Forall has_prediction (stored_rows (snd (collection_tick w))).
Proof.
  intros Hold. unfold collection_tick, try_except, tick_body.
  unfold bind at 1.
  destruct (generate_sensor_data_spec w) as (data & w1 & -> & Hdb1 & _).
  unfold bind at 1.
  pose proof (store_keeps_predictions data w1) as Hkeep.
  unfold stored_rows in *. rewrite Hdb1 in Hkeep. specialize (Hkeep Hold).
  destruct (store_traffic_data data w1) as [[u|e] w2]; cbn [snd] in Hkeep;
    run_monad; cbn; exact Hkeep.
Qed.

Lemma collector_keeps_predictions (n : nat) :
  forall w,
    Forall has_prediction (stored_rows w) ->
    Forall has_prediction (stored_rows (snd (data_collection_job n w))).
Proof.
  induction n as [|k IH]; intros w Hold; [exact Hold|].
  cbn [data_collection_job]. unfold bind.
  pose proof (collection_tick_keeps_predictions w Hold) as Hkeep.
  destruct (collection_tick_spec w) as (w1 & E & _).
  rewrite E in *. cbn [snd] in Hkeep. apply IH. exact Hkeep.
Qed.

(** C1, as the code has it.  When the INSERT of one Location's record
    fails during a tick, the exception leaves [store_traffic_data] before
    its only commit: no record of that tick is persisted, the stored table
    is what it was before the tick.  The loop catches the exception,
    prints it, sleeps the same 30 seconds and goes on with the subsequent
    ticks, all of which run. *)
Theorem failed_write_aborts_tick_only (sid : string) (n : nat) (w : world) :
  In sid (map fst IoTSimulator_sensors) ->
  (forall r, col_sensor_id r = SqlText sid -> insert_fails r = true) ->
  exists e w1 w',
    tick_body w = (Raise e, w1) /\
    collection_tick w = (Ok tt, w') /\
    w_db w' = w_db w /\
    w_stdout w' = (w_stdout w1 ++ [LogCollectionError e])%list /\
    w_slept w' = w_slept w + 30 /\
    data_collection_job (S n) w = data_collection_job n w' /\
    exists w'',
      data_collection_job n w' = (Ok tt, w'') /\
      ticks_logged (w_stdout w'') = (ticks_logged (w_stdout w') + n)%nat.
Proof.
  intros Hsid Hfault.
  assert (Hraise : exists e w1, tick_body w = (Raise e, w1)).
  { unfold tick_body. unfold bind at 1.
    destruct (generate_sensor_data_spec w) as (data & w0 & -> & _ & _ & _ & Hids).
    unfold bind at 1.
    unfold store_traffic_data, sqlite3_connect. run_monad.
    rewrite <- Hids in Hsid.
    destruct (store_loop_raises_on_fault sid Hfault data Hsid
                {| conn_view := w_db w0 |} w0) as (e & w1 & ->).
    eexists _, _. reflexivity. }
  destruct Hraise as (e & w1 & Hb).
  destruct (collection_tick_spec w) as (w' & Ht & Hsl & _ & Hfail).
  destruct (Hfail e w1 Hb) as (Hdb & Hout).
  destruct (data_collection_job_spec n w') as (w'' & Hjob & _ & Htk).
  exists e, w1, w'. repeat split; try assumption.
  - cbn [data_collection_job]. unfold bind. rewrite Ht. reflexivity.
  - exists w''. split; assumption.
Qed.

Transparent predict generate_training_data generate_readings.

End PipelineProperties.

(* ===================================================================== *)
(** ** The program on concrete hosts *)
(* ===================================================================== *)

(** Rush hour on the table: 250.7 truncates to 250.  Night: -3.5
    truncates to -3 and is clamped to 0. *)
Example predict_rush_hour :
  fst (@predict scripted table_sklearn sound_host 8 1 0 (world0 trained_predictor))
  = Ok 250.
Proof. vm_compute. reflexivity. Qed.

Example predict_night_clamped :
  fst (@predict scripted table_sklearn sound_host 2 1 0 (world0 trained_predictor))
  = Ok 0.
Proof. vm_compute. reflexivity. Qed.

Lemma predict_trains_on_first_use_witness :
  (exists v w',
     @predict scripted table_sklearn sound_host 8 1 0 (world0 fresh_predictor)
       = (Ok v, w') /\
     w' = snd (@train_model scripted table_sklearn sound_host (world0 fresh_predictor)) /\
     @infer table_sklearn (w_predictor w') 8 1 0 = Ok v /\
     is_trained (w_predictor w') = true /\
     training_runs (w_stdout w') = S (training_runs (w_stdout (world0 fresh_predictor)))) /\
  (snd (@predict scripted table_sklearn sound_host 8 1 0 (world0 trained_predictor))
     = world0 trained_predictor /\
   training_runs (w_stdout
     (snd (@predict scripted table_sklearn sound_host 8 1 0 (world0 trained_predictor))))
   = training_runs (w_stdout (world0 trained_predictor))).
Proof.
  split.
  - apply (proj1 (@predict_trains_on_first_use scripted table_sklearn sound_host
                    8 1 0 (world0 fresh_predictor))).
    reflexivity.
  - apply (proj2 (@predict_trains_on_first_use scripted table_sklearn sound_host
                    8 1 0 (world0 trained_predictor))).
    reflexivity.
Defined.

Lemma predict_deterministic_witness :
  exists v,
    @predict scripted table_sklearn sound_host 8 1 0 (world0 trained_predictor)
      = (Ok v, world0 trained_predictor) /\
    @predict scripted table_sklearn sound_host 8 1 0 (world1 trained_predictor)
      = (Ok v, world1 trained_predictor).
Proof.
  apply (@predict_deterministic scripted table_sklearn sound_host 8 1 0
           (world0 trained_predictor) (world1 trained_predictor) tt tt);
    reflexivity.
Defined.

Lemma predict_nonnegative_witness :
  exists v w' sc f,
    @predict scripted table_sklearn sound_host 2 1 0 (world0 trained_predictor)
      = (Ok v, w') /\
    scaler (w_predictor w') = Some sc /\
    estimators_ (model (w_predictor w')) = Some f /\
    v = Z.max 0 (F64.trunc
          (@forest_predict table_sklearn f
             (@scaler_transform table_sklearn sc (2, 1, 0)))) /\
    0 <= v.
Proof.
  apply (@predict_nonnegative scripted table_sklearn sound_host 2 1 0
           (world0 trained_predictor)).
  intros _. split; discriminate.
Defined.

(** [load_model] on three [models/] directories: empty; complete; and
    complete but for an info file that is not JSON.  In the last case the
    call answers [False] although it has already marked the predictor
    trained, with the estimator and the scaler of the two dumps. *)
Example load_model_no_files :
  let r := @load_model scripted table_sklearn sound_host (world0 fresh_predictor) in
  fst r = Ok false /\ is_trained (w_predictor (snd r)) = false.
Proof. vm_compute. split; reflexivity. Qed.

Example load_model_saved :
  let w := set_disk (saved_disk "2024-01-02T22:00:00") (world0 fresh_predictor) in
  let r := @load_model scripted table_sklearn sound_host w in
  fst r = Ok true /\ w_predictor (snd r) = trained_predictor.
Proof. vm_compute. split; reflexivity. Qed.

Example load_model_bad_info :
  let w := set_disk (saved_disk EmptyString) (world0 fresh_predictor) in
  let r := @load_model scripted table_sklearn sound_host w in
  fst r = Ok false /\ w_predictor (snd r) = trained_predictor.
Proof. vm_compute. split; reflexivity. Qed.

(** C9, where the code departs from it.  A fresh predictor finds valid
    model and scaler dumps and a [model_info.json] that is not JSON (an
    empty file), or one that cannot be opened.  [load_model] returns
    [False] and prints that a new model will be trained, but it has left
    the predictor Trained, with the estimator and the scaler of the dumps:
    the next [predict] answers from them and no training run follows. *)
Theorem load_model_false_yet_trained :
  let start (info : file) :=
    set_disk (<["models/model_info.json" := info]> (saved_disk EmptyString))
             (world0 fresh_predictor) in
  let load (info : file) :=
    @load_model scripted table_sklearn sound_host (start info) in
  let after (info : file) :=
    @predict scripted table_sklearn sound_host 8 1 0 (snd (load info)) in
  is_trained (w_predictor (start (Readable EmptyString))) = false /\
  @json_trained_at table_sklearn sound_host EmptyString = None /\
  load (Readable EmptyString)
    = (Ok false,
       set_stdout [LogLoadError JSONDecodeError]
         (set_predictor trained_predictor (start (Readable EmptyString)))) /\
  load Unreadable
    = (Ok false,
       set_stdout [LogLoadError (OSError "models/model_info.json")]
         (set_predictor trained_predictor (start Unreadable))) /\
  is_trained (w_predictor (snd (load (Readable EmptyString)))) = true /\
  is_trained (w_predictor (snd (load Unreadable))) = true /\
  fst (after (Readable EmptyString)) = Ok 250 /\
  training_runs (w_stdout (snd (after (Readable EmptyString)))) = 0%nat /\
  training_runs (w_stdout (snd (after Unreadable))) = 0%nat.
Proof. vm_compute. repeat split; reflexivity. Qed.

(** [TrafficPredictor()] where a regular file stands at [models]: the
    constructor raises. *)
Example constructor_needs_directory :
  let w := set_disk {[ "models" := Readable "notes" ]} (world0 fresh_predictor) in
  fst (@TrafficPredictor_init scripted table_sklearn sound_host w)
  = Raise (OSError "models").
Proof. vm_compute. reflexivity. Qed.

(** A save whose model dump fails after three bytes: the model saved
    before is lost, and the directory no longer loads. *)
Example failed_dump_destroys_saved_model :
  let w := set_disk (saved_disk "2024-01-02T22:00:00") (world0 trained_predictor) in
  let r := @save_model scripted table_sklearn short_dump_host w in
  fst r = Ok false /\
  w_disk (snd r) !! "models/traffic_model.pkl" = Some (Readable "for") /\
  fst (@load_model scripted table_sklearn short_dump_host
         (set_predictor fresh_predictor (snd r))) = Ok false.
Proof. vm_compute. repeat split; reflexivity. Qed.

(** C1 as stated fails.  At 23:00, with a trained predictor and an empty
    table, a tick persists the twelve Locations; when the INSERT fails for
    the rows of ["delhi_iffco"] and for no other row, the same tick
    persists none of them, not even ["delhi_cp"], whose INSERT had been
    executed. *)
Lemma tick_isolation_fails :
  let w := world0 trained_predictor in
  map col_sensor_id
      (stored_rows (snd (@collection_tick scripted table_sklearn sound_host w)))
    = map (fun s => SqlText (fst s)) IoTSimulator_sensors /\
  (forall r : row,
     @insert_fails table_sklearn faulty_host r = true <->
     col_sensor_id r = SqlText "delhi_iffco") /\
  stored_rows (snd (@collection_tick scripted table_sklearn faulty_host w)) = [].
Proof.
  intros w. split; [vm_compute; reflexivity|]. split; [|vm_compute; reflexivity].
  intros r. cbn. unfold fails_for.
  destruct (col_sensor_id r) as [|z|x|s]; try (split; discriminate).
  destruct (String.eqb_spec s "delhi_iffco") as [->|Hne].
  - split; reflexivity.
  - split; [discriminate|]. intros E. injection E as E. contradiction.
Qed.

Lemma failed_write_aborts_tick_only_witness :
  let w := world0 trained_predictor in
  exists e w1 w',
    @tick_body scripted table_sklearn faulty_host w = (Raise e, w1) /\
    @collection_tick scripted table_sklearn faulty_host w = (Ok tt, w') /\
    w_db w' = w_db w /\
    w_stdout w' = (w_stdout w1 ++ [LogCollectionError e])%list /\
    w_slept w' = w_slept w + 30 /\
    @data_collection_job scripted table_sklearn faulty_host 3 w
      = @data_collection_job scripted table_sklearn faulty_host 2 w' /\
    exists w'',
      @data_collection_job scripted table_sklearn faulty_host 2 w' = (Ok tt, w'') /\
      ticks_logged (w_stdout w'') = (ticks_logged (w_stdout w') + 2)%nat.
Proof.
  intros w.
  apply (@failed_write_aborts_tick_only scripted table_sklearn faulty_host
           "delhi_iffco" 2 w).
  - simpl. right. left. reflexivity.
  - intros r Hr. cbn. unfold fails_for. rewrite Hr. reflexivity.
Defined.

(* ===================================================================== *)
(** ** Further properties of the simulator and of the training data *)
(* ===================================================================== *)

Section GeneratorProperties.

Context `{RandomSource}.

(** [random.choice([0, 1, 2])] yields one of the three codes. *)
Lemma choice_weather (g : rng) :
  let w := fst (choice [0; 1; 2] g) in w = 0 \/ w = 1 \/ w = 2.
Proof.
  unfold choice, rbind, rret. cbn [length Z.of_nat].
  pose proof (randbelow_range (Z.of_nat 3) g ltac:(lia)) as Hr.
  destruct (randbelow (Z.of_nat 3) g) as [i g']. cbn [fst] in *.
  assert (Hi : i = 0 \/ i = 1 \/ i = 2) by lia.
  destruct Hi as [-> | [-> | ->]]; cbn; auto.
Qed.

Lemma generate_training_data_samples (n : nat) :
  forall (g g' : rng) (df : list sample),
    generate_training_data n g = (df, g') ->
    length df = n /\ Forall (fun s => sample_in_range s /\ sample_separated s) df.
Proof.
  induction n as [|k IH]; intros g g' df E.
  { injection E as <- _. split; [reflexivity|constructor]. }
  revert E. cbn [generate_training_data]. unfold rbind at 1.
  pose proof (randint_range 0 23 g ltac:(lia)) as Hh.
  destruct (randint 0 23 g) as [hour g1]. cbn [fst] in Hh.
  unfold rbind at 1.
  pose proof (randint_range 0 6 g1 ltac:(lia)) as Hd.
  destruct (randint 0 6 g1) as [day g2]. cbn [fst] in Hd.
  unfold rbind at 1.
  pose proof (choice_weather g2) as Hw.
  destruct (choice [0; 1; 2] g2) as [weather g3]. cbn [fst] in Hw.
  unfold rbind at 1.
  assert (Hb1 : exists b1 g4,
    (if rush_hour hour then rbind (randint 150 300) (fun r => rret (80 + r))
     else if afternoon hour then rbind (randint 50 100) (fun r => rret (80 + r))
     else if night_time hour then rbind (randint 30 50) (fun r => rret (80 - r))
     else rret 80) g3 = (b1, g4) /\
    (rush_hour hour = true -> 230 <= b1 <= 380) /\
    (night_time hour = true -> rush_hour hour = false -> afternoon hour = false ->
     30 <= b1 <= 50) /\
    30 <= b1 <= 380).
  { destruct (rush_hour hour) eqn:Er; [|destruct (afternoon hour) eqn:Ea;
      [|destruct (night_time hour) eqn:En]];
      unfold rbind, rret;
      try match goal with
          | |- context [randint ?lo ?hi g3] =>
              pose proof (randint_range lo hi g3 ltac:(lia)) as Hr;
              destruct (randint lo hi g3) as [r g4]; cbn [fst] in Hr
          end;
      eexists _, _; (split; [reflexivity|]);
      repeat split; intros; try discriminate; lia. }
  destruct Hb1 as (b1 & g4 & -> & Hrush & Hnight & Hb1).
  unfold rbind at 1.
  assert (Hb2 : exists b2 g5,
    (if day >=? 5 then rbind (randint 20 40) (fun r => rret (b1 - r))
     else rret b1) g4 = (b2, g5) /\
    b1 - 40 <= b2 <= b1 /\ (day < 5 -> b2 = b1)).
  { destruct (Z.geb_spec day 5); unfold rbind, rret.
    - pose proof (randint_range 20 40 g4 ltac:(lia)) as Hr.
      destruct (randint 20 40 g4) as [r g5]. cbn [fst] in Hr.
      eexists _, _. split; [reflexivity|]. split; lia.
    - eexists _, _. split; [reflexivity|]. split; lia. }
  destruct Hb2 as (b2 & g5 & -> & Hb2 & Hweek).
  unfold rbind at 1.
  assert (Hb3 : exists b3 g6,
    (if weather =? 1 then rbind (randint 40 80) (fun r => rret (b2 + r))
     else rret b2) g5 = (b3, g6) /\
    b2 <= b3 <= b2 + 80 /\ (weather <> 1 -> b3 = b2)).
  { destruct (Z.eqb_spec weather 1); unfold rbind, rret.
    - pose proof (randint_range 40 80 g5 ltac:(lia)) as Hr.
      destruct (randint 40 80 g5) as [r g6]. cbn [fst] in Hr.
      eexists _, _. split; [reflexivity|]. split; lia.
    - eexists _, _. split; [reflexivity|]. split; lia. }
  destruct Hb3 as (b3 & g6 & -> & Hb3 & Hdry).
  unfold rbind at 1.
  pose proof (randint_range (-30) 30 g6 ltac:(lia)) as Hj.
  destruct (randint (-30) 30 g6) as [j g7]. cbn [fst] in Hj.
  unfold rbind at 1. specialize (IH g7).
  destruct (generate_training_data k g7) as [rest g8].
  destruct (IH _ _ eq_refl) as [Hlen Hall]. unfold rret.
  intros E. injection E as <- _.
  split; [cbn; rewrite Hlen; reflexivity|].
  constructor; [|exact Hall].
  unfold sample_in_range, sample_separated. cbn.
  assert (Hnr : (22 <= hour \/ hour <= 5) ->
                night_time hour = true /\ rush_hour hour = false /\
                afternoon hour = false).
  { intros Hn. unfold night_time, rush_hour, afternoon. lia. }
  assert (Hrr : (7 <= hour <= 11 \/ 16 <= hour <= 21) -> rush_hour hour = true).
  { intros Hr. apply rush_hour_spec. exact Hr. }
  repeat split; try lia; intros;
    try (specialize (Hrush (Hrr ltac:(assumption))));
    try (destruct (Hnr ltac:(assumption)) as (Hn1 & Hn2 & Hn3);
         specialize (Hnight Hn1 Hn2 Hn3));
    try (rewrite (Hdry ltac:(assumption)), (Hweek ltac:(assumption)));
    lia.
Qed.

(** X1.  [generate_training_data n] returns exactly [n] samples; each has
    an hour of 0..23, a day of 0..6, a weather code of 0, 1 or 2, and a
    traffic flow of 0..490. *)
Theorem training_data_ranges (n : nat) (g : rng) :
  let df := fst (generate_training_data n g) in
  length df = n /\
  Forall (fun s =>
            0 <= s_hour s <= 23 /\ 0 <= s_day_of_week s <= 6 /\
            (s_weather s = 0 \/ s_weather s = 1 \/ s_weather s = 2) /\
            0 <= s_traffic_flow s <= 490) df.
Proof.
  destruct (generate_training_data n g) as [df g'] eqn:E. cbn [fst].
  destruct (generate_training_data_samples n g g' df E) as [Hlen Hall].
  split; [exact Hlen|].
  eapply Forall_impl; [exact Hall|]. intros s [Hr _]. exact Hr.
Qed.

(** X2.  The labels separate the hour bands: a sample of a rush hour
    (7..11, 16..21) has a flow of at least 160 and a sample of the night
    (22.., ..5) a flow of at most 160; on a weekday without rain the rush
    flow is 200..410 and the night flow at most 80. *)
Theorem training_data_separation (n : nat) (g : rng) :
  Forall (fun s =>
    ((7 <= s_hour s <= 11 \/ 16 <= s_hour s <= 21) -> 160 <= s_traffic_flow s) /\
    ((22 <= s_hour s \/ s_hour s <= 5) -> s_traffic_flow s <= 160) /\
    (s_day_of_week s < 5 -> s_weather s <> 1 ->
     ((7 <= s_hour s <= 11 \/ 16 <= s_hour s <= 21) ->
        200 <= s_traffic_flow s <= 410) /\
     ((22 <= s_hour s \/ s_hour s <= 5) -> s_traffic_flow s <= 80)))
    (fst (generate_training_data n g)).
Proof.
  destruct (generate_training_data n g) as [df g'] eqn:E. cbn [fst].
  destruct (generate_training_data_samples n g g' df E) as [_ Hall].
  eapply Forall_impl; [exact Hall|]. intros s [_ Hs]. exact Hs.
Qed.

(** X3.  The test data of [analyze_model.py] is generated as the
    training data is: from the same random source, [generate_test_data]
    and [generate_training_data] return the same samples. *)
Theorem generate_test_data_as_training (n : nat) (g : rng) :
  generate_test_data n g = generate_training_data n g.
Proof.
  revert g. induction n as [|k IH]; intros g; [reflexivity|].
  cbn [generate_test_data generate_training_data].
  unfold rbind, rret, rush_hour, afternoon, night_time.
  repeat (cbv beta;
          match goal with
          | |- context [randint ?a ?b ?g0] => destruct (randint a b g0)
          | |- context [choice ?l ?g0] => destruct (choice l g0)
          | |- context [if ?c then _ else _] => destruct c
          end);
    cbv beta; rewrite IH; reflexivity.
Qed.

(** The fields one turn of the sensor loop fills in, with the running
    count [b] after the time-of-day step and the jitter [j]. *)
Lemma sensor_reading_count (current_time : datetime) (sid : string)
    (loc : Location) (g : rng) :
  let r := fst (sensor_reading current_time sid loc g) in
  let ctype := default "medium" (congestion_type loc) in
  let b := fst (time_of_day ctype (dt_hour current_time)
                  (base_vehicles_of ctype) g) in
  timestamp r = dt_isoformat current_time /\
  exists j, -15 <= j <= 15 /\
    vehicle_count r = Z.max 0 (city_multiplier sid b + j) /\
    congestion_level r = level_of (city_multiplier sid b + j).
Proof.
  intros r ctype b. subst r b. unfold sensor_reading, rbind, rret.
  fold ctype.
  destruct (time_of_day ctype (dt_hour current_time) (base_vehicles_of ctype) g)
    as [b g1]. cbn [fst].
  pose proof (randint_range (-15) 15 g1 ltac:(lia)) as Hj.
  destruct (randint (-15) 15 g1) as [j g2]. cbn [fst] in Hj.
  destruct (speed_of ctype (city_multiplier sid b + j) g2) as [sp g3].
  cbn. split; [reflexivity|]. exists j. repeat split; lia.
Qed.

(** X4.  A call of the simulator returns one reading per sensor, in the
    order of the dict, each with the id and the Location of its sensor,
    all with the timestamp of the call, and each with a vehicle count of
    0..351. *)
Theorem readings_one_per_sensor (current_time : datetime)
    (sensors : list (string * Location)) (g : rng) :
  let readings := fst (generate_readings current_time sensors g) in
  map (fun r => (sensor_id r, location r)) readings = sensors /\
  Forall (fun r => timestamp r = dt_isoformat current_time /\
                   0 <= vehicle_count r <= 351) readings.
Proof.
  revert g. induction sensors as [|[sid loc] rest IH]; intros g.
  { split; [reflexivity|constructor]. }
  cbn [generate_readings]. unfold rbind.
  pose proof (sensor_reading_shape current_time sid loc g)
    as (Hid & Hloc & count & jitter & Hc & _ & Hv & _).
  pose proof (sensor_reading_count current_time sid loc g) as (Hts & _).
  destruct (sensor_reading current_time sid loc g) as [r g1].
  specialize (IH g1).
  destruct (generate_readings current_time rest g1) as [rs g2].
  cbn [fst] in *. destruct IH as [IHm IHf]. split.
  - cbn. rewrite Hid, Hloc, IHm. reflexivity.
  - constructor; [|exact IHf]. split; [exact Hts|lia].
Qed.

Lemma time_of_day_rush (ctype : string) (hour : Z) (g : rng) :
  rush_hour hour = true ->
  let c := class_of ctype in
  spec_base c + fst (rush_range c)
    <= fst (time_of_day ctype hour (base_vehicles_of ctype) g)
    <= spec_base c + snd (rush_range c).
Proof.
  intros Hr. unfold time_of_day, base_vehicles_of, class_of. rewrite Hr.
  destruct (String.eqb ctype "high"); [|destruct (String.eqb ctype "medium")];
    match goal with
    | |- context [rbind (randint ?lo ?hi) (fun r => rret (?b + r)) g] =>
        destruct (add_draw_range lo hi b g ltac:(lia)) as (r & Hb & ->)
    end; cbn; lia.
Qed.

Lemma time_of_day_night (ctype : string) (hour : Z) (g : rng) :
  rush_hour hour = false -> afternoon hour = false -> night_time hour = true ->
  let c := class_of ctype in
  fst (night_range c)
    <= fst (time_of_day ctype hour (base_vehicles_of ctype) g)
    <= snd (night_range c).
Proof.
  intros Hr Ha Hn. unfold time_of_day, class_of. rewrite Hr, Ha, Hn.
  destruct (String.eqb ctype "high"); [|destruct (String.eqb ctype "medium")];
    match goal with
    | |- context [randint ?lo ?hi g] =>
        pose proof (randint_range lo hi g ltac:(lia))
    end; cbn; lia.
Qed.

(** The city multipliers never lower a count and never raise it above
    1.4 times its value. *)
Lemma multiplier_between_enum :
  Zrange_forallb
    (fun b =>
       let ok m :=
         let v := F64.trunc (F64.of_Z b * m)%float in
         (b <=? v) && (v <=? 14 * b / 10) in
       ok 1.4%float && ok 1.2%float && ok 1.1%float)
    3 238 = true.
Proof. vm_compute. reflexivity. Qed.

Lemma city_multiplier_between (sid : string) (b : Z) :
  3 <= b <= 240 -> b <= city_multiplier sid b <= 14 * b / 10.
Proof.
  intros Hb.
  pose proof (Zrange_forallb_spec _ _ _ multiplier_between_enum b ltac:(lia)) as E.
  cbv beta zeta in E.
  repeat (apply andb_true_iff in E; destruct E as [E ?]).
  assert (b <= 14 * b / 10) by (apply Z.div_le_lower_bound; lia).
  unfold city_multiplier.
  repeat match goal with
         | |- context [if ?c then _ else _] => destruct c
         end; lia.
Qed.

Lemma sensor_reading_rush (current_time : datetime) (sid : string)
    (loc : Location) (g : rng) :
  (7 <= dt_hour current_time <= 11 \/ 16 <= dt_hour current_time <= 21) ->
  let r := fst (sensor_reading current_time sid loc g) in
  let c := class_of (default "medium" (congestion_type loc)) in
  rush_least c <= vehicle_count r /\
  (c = High -> congestion_level r = "High").
Proof.
  intros Hh r c. apply rush_hour_spec in Hh.
  destruct (sensor_reading_count current_time sid loc g)
    as (_ & j & Hj & Hv & Hl).
  fold r in Hv, Hl. rewrite Hv, Hl.
  pose proof (time_of_day_rush (default "medium" (congestion_type loc))
                (dt_hour current_time) g Hh) as Hb.
  pose proof (time_of_day_bound (default "medium" (congestion_type loc))
                (dt_hour current_time) g) as Hb0.
  cbv zeta in Hb. fold c in Hb.
  set (b := fst (time_of_day _ _ _ g)) in *.
  pose proof (city_multiplier_between sid b Hb0) as Hm.
  split.
  - destruct c; cbn in *; lia.
  - intros ->. cbn in Hb. unfold level_of.
    destruct (Z.gtb_spec (city_multiplier sid b + j) 80); [reflexivity|lia].
Qed.

Lemma sensor_reading_night (current_time : datetime) (sid : string)
    (loc : Location) (g : rng) :
  (22 <= dt_hour current_time \/ dt_hour current_time <= 5) ->
  let r := fst (sensor_reading current_time sid loc g) in
  let c := class_of (default "medium" (congestion_type loc)) in
  vehicle_count r <= night_most c /\ congestion_level r <> "High".
Proof.
  intros Hh r c.
  assert (Hn : night_time (dt_hour current_time) = true /\
               rush_hour (dt_hour current_time) = false /\
               afternoon (dt_hour current_time) = false).
  { unfold night_time, rush_hour, afternoon. lia. }
  destruct Hn as (Hn & Hr & Ha).
  destruct (sensor_reading_count current_time sid loc g)
    as (_ & j & Hj & Hv & Hl).
  fold r in Hv, Hl. rewrite Hv, Hl.
  pose proof (time_of_day_night (default "medium" (congestion_type loc))
                (dt_hour current_time) g Hr Ha Hn) as Hb.
  pose proof (time_of_day_bound (default "medium" (congestion_type loc))
                (dt_hour current_time) g) as Hb0.
  cbv zeta in Hb. fold c in Hb.
  set (b := fst (time_of_day _ _ _ g)) in *.
  pose proof (city_multiplier_between sid b Hb0) as Hm.
  clearbody b r.
  assert (Hle : city_multiplier sid b + j <= night_most c).
  { clear Hv Hl.
    destruct c; cbn in Hb |- *;
      match goal with
      | Hu : _ <= b <= ?hi |- _ =>
          let top := eval compute in (14 * hi / 10) in
          assert (Htop : 14 * b / 10 <= 14 * hi / 10)
            by (apply Z.div_le_mono; lia);
          change (14 * hi / 10) with top in Htop;
          clear - Htop Hm Hj; lia
      end. }
  split.
  - destruct c; cbn in *; lia.
  - unfold level_of.
    destruct (Z.gtb_spec (city_multiplier sid b + j) 80).
    + destruct c; cbn in *; lia.
    + destruct (Z.gtb_spec (city_multiplier sid b + j) 40); discriminate.
Qed.

(** X5.  For every sensor, a reading taken at a rush hour counts more
    vehicles than a reading taken at night, whatever is drawn; the night
    reading is never labelled High, and the rush reading of a Location of
    class high always is. *)
Theorem rush_exceeds_night (rush night : datetime)
    (sensors : list (string * Location)) (g1 g2 : rng) :
  (7 <= dt_hour rush <= 11 \/ 16 <= dt_hour rush <= 21) ->
  (22 <= dt_hour night \/ dt_hour night <= 5) ->
  Forall2 (fun r1 r2 =>
             vehicle_count r2 < vehicle_count r1 /\
             congestion_level r2 <> "High" /\
             (congestion_type (location r1) = Some "high" ->
              congestion_level r1 = "High"))
          (fst (generate_readings rush sensors g1))
          (fst (generate_readings night sensors g2)).
Proof.
  intros Hrush Hnight. revert g1 g2.
  induction sensors as [|[sid loc] rest IH]; intros g1 g2; [constructor|].
  cbn [generate_readings]. unfold rbind.
  pose proof (sensor_reading_rush rush sid loc g1 Hrush) as (Hr1 & Hr2).
  pose proof (sensor_reading_night night sid loc g2 Hnight) as (Hn1 & Hn2).
  pose proof (sensor_reading_shape rush sid loc g1) as (_ & Hloc & _).
  destruct (sensor_reading rush sid loc g1) as [r1 g1'].
  destruct (sensor_reading night sid loc g2) as [r2 g2'].
  specialize (IH g1' g2').
  destruct (generate_readings rush rest g1') as [rs1 g1''].
  destruct (generate_readings night rest g2') as [rs2 g2''].
  cbn [fst] in *. constructor; [|exact IH].
  split; [|split; [exact Hn2|]].
  - destruct (class_of (default "medium" (congestion_type loc)));
      cbn in *; lia.
  - intros Hc. apply Hr2. rewrite Hloc in Hc. rewrite Hc. reflexivity.
Qed.

End GeneratorProperties.

(* ===================================================================== *)
(** ** Further properties of the predictor *)
(* ===================================================================== *)

Section PredictorProperties.

Context `{RandomSource} `{Host}.

Opaque generate_training_data generate_readings.

Ltac run_program :=
  cbv [bind try_except get_self set_self gets modify ret raise
       print time_sleep datetime_now draw path_exists write_file].
Ltac run_program_in E :=
  cbv [bind try_except get_self set_self gets modify ret raise
       print time_sleep datetime_now draw path_exists write_file] in E.

(** Whatever the state, a call of [predict] leaves the predictor marked
    trained, and it trains exactly when the predictor was not. *)
Lemma predict_training (hour day_of_week weather : Z) (w : world) :
  let w' := snd (predict hour day_of_week weather w) in
  is_trained (w_predictor w') = true /\
  training_runs (w_stdout w') =
    (training_runs (w_stdout w)
     + (if is_trained (w_predictor w) then 0 else 1))%nat.
Proof.
  destruct (is_trained (w_predictor w)) eqn:Ht.
  - rewrite (predict_trained _ _ _ _ Ht). cbn [snd]. split; [exact Ht|lia].
  - destruct (predict_untrained_returns hour day_of_week weather w Ht)
      as (v & w' & -> & _ & _ & Ht' & Hruns).
    cbn [snd]. split; [exact Ht'|lia].
Qed.

(** On a ready predictor [predict] returns a value, and the predictor it
    leaves is trained, fitted, and answers the same call with the same
    value. *)
Lemma predict_ready (hour day_of_week weather : Z) (w : world) :
  ready (w_predictor w) ->
  exists v w',
    predict hour day_of_week weather w = (Ok v, w') /\ 0 <= v /\
    is_trained (w_predictor w') = true /\ ready (w_predictor w') /\
    infer (w_predictor w') hour day_of_week weather = Ok v.
Proof.
  intros Hready.
  assert (Hret : exists v w', predict hour day_of_week weather w = (Ok v, w')).
  { destruct (is_trained (w_predictor w)) eqn:Ht.
    - destruct (Hready Ht) as [Hs Hf].
      rewrite (predict_trained _ _ _ _ Ht). unfold infer.
      destruct (scaler (w_predictor w)) as [sc|]; [|contradiction].
      destruct (estimators_ (model (w_predictor w))) as [f|]; [|contradiction].
      rewrite forest_predict_finite. eexists _, _. reflexivity.
    - destruct (predict_untrained_returns hour day_of_week weather w Ht)
        as (v & w' & E & _). exists v, w'. exact E. }
  destruct Hret as (v & w' & E).
  pose proof (predict_value _ _ _ _ _ _ E) as Hv.
  destruct (infer_value _ _ _ _ _ Hv) as (sc & f & Hs & Hf & _ & Hpos).
  pose proof (predict_training hour day_of_week weather w) as (Ht' & _).
  rewrite E in Ht'. cbn [snd] in Ht'.
  exists v, w'.
  split; [exact E|]. split; [exact Hpos|]. split; [exact Ht'|].
  split; [|exact Hv].
  unfold ready. intros _. rewrite Hs, Hf. split; discriminate.
Qed.

Lemma all_same_replicate (n : nat) (v : Z) :
  all_same (replicate (S n) v) = true.
Proof.
  unfold all_same.
  assert (E : (list_to_set (replicate (S n) v) : gset Z) = {[ v ]}).
  { induction n as [|k IH]; cbn [replicate list_to_set] in *.
    - apply union_empty_r_L.
    - rewrite IH. apply union_idemp_L. }
  rewrite E, size_singleton. reflexivity.
Qed.

(** On a trained, fitted predictor the loop of [test_consistency] gets the
    same value every time and changes nothing. *)
Lemma predict_repeatedly_trained (n : nat) (hour day_of_week weather v : Z)
    (w : world) :
  is_trained (w_predictor w) = true ->
  infer (w_predictor w) hour day_of_week weather = Ok v ->
  predict_repeatedly n hour day_of_week weather w = (Ok (replicate n v), w).
Proof.
  intros Ht Hv. induction n as [|k IH]; [reflexivity|].
  cbn [predict_repeatedly replicate]. unfold bind.
  rewrite (predict_trained _ _ _ _ Ht), Hv, IH. reflexivity.
Qed.

(** X8.  The loop of [test_consistency] ([n] calls of [predict] with one
    test case) on a ready predictor returns [n] times the same value, so
    that [len(set(predictions)) == 1] holds for [n >= 1]; the first call
    trains if the predictor was untrained, and no later call does. *)
Theorem predictions_consistent (n : nat) (hour day_of_week weather : Z)
    (w : world) :
  ready (w_predictor w) ->
  exists v w',
    predict_repeatedly (S n) hour day_of_week weather w
      = (Ok (replicate (S n) v), w') /\
    all_same (replicate (S n) v) = true /\
    0 <= v /\
    training_runs (w_stdout w') =
      (training_runs (w_stdout w)
       + (if is_trained (w_predictor w) then 0 else 1))%nat.
Proof.
  intros Hready.
  destruct (predict_ready hour day_of_week weather w Hready)
    as (v & w' & E & Hpos & Ht' & _ & Hv).
  pose proof (predict_training hour day_of_week weather w) as (_ & Hruns).
  rewrite E in Hruns. cbn [snd] in Hruns.
  exists v, w'. cbn [predict_repeatedly]. unfold bind. rewrite E.
  rewrite (predict_repeatedly_trained n _ _ _ v w' Ht' Hv).
  split; [reflexivity|]. split; [apply all_same_replicate|].
  split; assumption.
Qed.

(** X6.  [save_model] never raises and answers [True] exactly when none
    of its three writes fails, at [open] or in the dump.  It writes the
    model, then the scaler, then the info file, and stops at the first
    write that fails without undoing the earlier ones.  A write that
    fails at [open] leaves its file as it was; one that fails in the dump
    leaves the bytes written so far in place of the old file, so a failed
    save can destroy the model saved before. *)
Theorem save_model_outcome (w : world) :
  let p := w_predictor w in
  let m := pickle_dumps_model (model p) in
  let s := pickle_dumps_scaler (scaler p) in
  let d1 := <[model_path p := Readable m]> (w_disk w) in
  let d2 := <[scaler_path p := Readable s]> d1 in
  exists b w' info,
    save_model w = (Ok b, w') /\
    trained_at info = dt_isoformat (clock (w_clock w)) /\
    info_n_estimators info = n_estimators (model p) /\
    info_is_trained info = is_trained p /\
    (b = true <->
     write_succeeds (model_path p) /\ write_succeeds (scaler_path p) /\
     write_succeeds (model_info_path p)) /\
    (write_fails (model_path p) = true -> w_disk w' = w_disk w) /\
    (forall n,
       write_fails (model_path p) = false ->
       dump_fails (model_path p) = Some n ->
       w_disk w' = <[model_path p := Readable (substring 0 n m)]> (w_disk w)) /\
    (write_succeeds (model_path p) ->
     write_fails (scaler_path p) = true -> w_disk w' = d1) /\
    (forall n,
       write_succeeds (model_path p) ->
       write_fails (scaler_path p) = false ->
       dump_fails (scaler_path p) = Some n ->
       w_disk w' = <[scaler_path p := Readable (substring 0 n s)]> d1) /\
    (write_succeeds (model_path p) -> write_succeeds (scaler_path p) ->
     write_fails (model_info_path p) = true -> w_disk w' = d2) /\
    (forall n,
       write_succeeds (model_path p) -> write_succeeds (scaler_path p) ->
       write_fails (model_info_path p) = false ->
       dump_fails (model_info_path p) = Some n ->
       w_disk w' =
         <[model_info_path p := Readable (substring 0 n (json_dumps info))]> d2) /\
    (b = true ->
     w_disk w' = <[model_info_path p := Readable (json_dumps info)]> d2).
Proof.
  intros p m s d1 d2. subst p m s d1 d2. unfold save_model. run_program. cbn.
  set (info := {| trained_at := dt_isoformat (clock (w_clock w));
                  model_type := "RandomForestRegressor";
                  info_n_estimators := n_estimators (model (w_predictor w));
                  features := ["hour"; "day_of_week"; "weather"];
                  info_is_trained := is_trained (w_predictor w) |}).
  destruct (write_fails (model_path (w_predictor w))) eqn:E1;
    [|destruct (dump_fails (model_path (w_predictor w))) as [n1|] eqn:D1;
      [|cbn;
        destruct (write_fails (scaler_path (w_predictor w))) eqn:E2;
        [|destruct (dump_fails (scaler_path (w_predictor w))) as [n2|] eqn:D2;
          [|cbn;
            destruct (write_fails (model_info_path (w_predictor w))) eqn:E3;
            [|destruct (dump_fails (model_info_path (w_predictor w)))
                as [n3|] eqn:D3]]]]];
    cbn; eexists _, _, info; (split; [reflexivity|]); cbn;
    unfold write_succeeds;
    repeat split; intros;
    repeat match goal with
           | Hc : _ /\ _ |- _ => destruct Hc
           end;
    subst info; first [reflexivity | assumption | congruence].
Qed.

(** After a [save_model] whose first two writes succeed the two dumps are
    on the disk, whatever becomes of the info file; no other file than
    the three is touched. *)
Lemma save_model_files (w : world) :
  let p := w_predictor w in
  write_succeeds (model_path p) ->
  write_succeeds (scaler_path p) ->
  model_path p <> scaler_path p ->
  model_info_path p <> model_path p ->
  model_info_path p <> scaler_path p ->
  let w' := snd (save_model w) in
  w_predictor w' = p /\
  w_disk w' !! model_path p = Some (Readable (pickle_dumps_model (model p))) /\
  w_disk w' !! scaler_path p = Some (Readable (pickle_dumps_scaler (scaler p))) /\
  forall path,
    path <> model_path p -> path <> scaler_path p ->
    path <> model_info_path p ->
    w_disk w' !! path = w_disk w !! path.
Proof.
  intros p [E1 D1] [E2 D2] N1 N2 N3. subst p.
  unfold save_model. run_program. cbn.
  rewrite E1, D1. cbn. rewrite E2, D2. cbn.
  destruct (write_fails (model_info_path (w_predictor w)));
    [|destruct (dump_fails (model_info_path (w_predictor w)))]; cbn;
    (split; [reflexivity|]);
    rewrite ?(lookup_insert_ne _ (model_info_path _)) by congruence;
    (split; [rewrite lookup_insert_ne by congruence; apply lookup_insert_eq|]);
    (split; [apply lookup_insert_eq|]);
    intros path P1 P2 P3;
    rewrite ?(lookup_insert_ne _ (model_info_path _)) by congruence;
    rewrite !lookup_insert_ne by congruence; reflexivity.
Qed.

(** The predictor a training run leaves, and the files it leaves. *)
Lemma train_model_files (w : world) :
  let p := w_predictor w in
  write_succeeds (model_path p) ->
  write_succeeds (scaler_path p) ->
  model_path p <> scaler_path p ->
  model_info_path p <> model_path p ->
  model_info_path p <> scaler_path p ->
  exists score w1,
    train_model w = (Ok score, w1) /\
    is_trained (w_predictor w1) = true /\
    w_disk w1 !! model_path p
      = Some (Readable (pickle_dumps_model (model (w_predictor w1)))) /\
    w_disk w1 !! scaler_path p
      = Some (Readable (pickle_dumps_scaler (scaler (w_predictor w1)))) /\
    forall path,
      path <> model_path p -> path <> scaler_path p ->
      path <> model_info_path p ->
      w_disk w1 !! path = w_disk w !! path.
Proof.
  intros p E1 E2 N1 N2 N3. subst p. unfold train_model. run_program. cbn.
  destruct (generate_training_data 1000 (w_rng w)) as [df g'].
  destruct (train_test_split df) as [train test]. cbn.
  match goal with
  | |- context [save_model ?w0] =>
      pose proof (save_model_files w0) as Hs;
      destruct (save_model_spec w0) as (b & w1 & line & Es & _)
  end.
  cbn in Hs. specialize (Hs E1 E2 N1 N2 N3).
  rewrite Es in *. cbn in *. destruct Hs as (Hp & Hm & Hsc & Hframe).
  eexists _, _. split; [reflexivity|].
  rewrite Hp. cbn. repeat split; assumption.
Qed.

(** [load_model] on a directory from which both dumps can be restored. *)
Lemma load_model_restores (w : world) (m : RandomForestRegressor)
    (s : StandardScaler) :
  restorable pickle_loads_model (w_disk w) (model_path (w_predictor w)) = Some m ->
  restorable pickle_loads_scaler (w_disk w) (scaler_path (w_predictor w)) = Some s ->
  w_predictor (snd (load_model w))
  = set_is_trained true (set_scaler s (set_model m (w_predictor w))).
Proof.
  unfold restorable. intros Hm Hs.
  destruct (w_disk w !! model_path (w_predictor w)) as [[bm|]|] eqn:Em;
    try discriminate.
  destruct (w_disk w !! scaler_path (w_predictor w)) as [[bs|]|] eqn:Es;
    try discriminate.
  unfold load_model, unpickle, read_file. run_program. cbn.
  rewrite Em, Es. cbn. rewrite Em. cbn. rewrite Hm. cbn. rewrite Es. cbn.
  rewrite Hs. cbn.
  destruct (w_disk w !! model_info_path (w_predictor w)) as [[bi|]|] eqn:Ei;
    cbn; rewrite ?Ei; cbn; try destruct (json_trained_at bi); reflexivity.
Qed.

(** [load_model] never raises, and changes neither the paths nor the
    disk. *)
Lemma load_model_frame (w : world) :
  exists b w',
    load_model w = (Ok b, w') /\
    model_path (w_predictor w') = model_path (w_predictor w) /\
    scaler_path (w_predictor w') = scaler_path (w_predictor w) /\
    model_info_path (w_predictor w') = model_info_path (w_predictor w) /\
    w_disk w' = w_disk w.
Proof.
  unfold load_model, unpickle, read_file. run_program. cbn.
  destruct (w_disk w !! model_path (w_predictor w)) as [[bm|]|] eqn:Em;
    destruct (w_disk w !! scaler_path (w_predictor w)) as [[bs|]|] eqn:Es;
    cbn; rewrite ?Em, ?Es; cbn;
    try (eexists _, _; split; [reflexivity|]; repeat split; fail).
  all: destruct (pickle_loads_model bm) as [m|]; cbn; rewrite ?Es; cbn;
    try (eexists _, _; split; [reflexivity|]; repeat split; fail).
  all: destruct (pickle_loads_scaler bs) as [s|]; cbn;
    try (eexists _, _; split; [reflexivity|]; repeat split; fail).
  all: destruct (w_disk w !! model_info_path (w_predictor w)) as [[bi|]|] eqn:Ei;
    cbn; rewrite ?Ei; cbn; try destruct (json_trained_at bi); cbn;
    eexists _, _; (split; [reflexivity|]); repeat split.
Qed.

(** The constructor returns when [os.makedirs] does: no file stands at
    [models] and the host does not refuse. *)
Lemma init_predictor (w : world) :
  makedirs_fails "models" = false ->
  w_disk w !! "models" = None ->
  exists w0,
    TrafficPredictor_init w = (Ok tt, w0) /\
    model_path (w_predictor w0) = "models/traffic_model.pkl" /\
    scaler_path (w_predictor w0) = "models/scaler.pkl" /\
    model_info_path (w_predictor w0) = "models/model_info.json" /\
    w_disk w0 = w_disk w.
Proof.
  intros Hmk Hdir.
  unfold TrafficPredictor_init, os_makedirs. run_program. cbn.
  rewrite Hdir, Hmk.
  match goal with
  | |- context [load_model ?w0] =>
      destruct (load_model_frame w0) as (b & w1 & -> & Hf)
  end.
  exists w1. split; [reflexivity|]. cbn in Hf. exact Hf.
Qed.

(** Otherwise it raises, before any attempt to load. *)
Lemma init_needs_directory (w : world) :
  w_disk w !! "models" <> None \/ makedirs_fails "models" = true ->
  exists w',
    TrafficPredictor_init w = (Raise (OSError "models"), w') /\
    w_stdout w' = w_stdout w.
Proof.
  intros Hbad.
  unfold TrafficPredictor_init, os_makedirs. run_program. cbn.
  destruct (w_disk w !! "models") as [f|];
    [eexists; split; reflexivity|].
  destruct Hbad as [Hbad|Hbad]; [contradiction|]. rewrite Hbad.
  eexists. split; reflexivity.
Qed.

(** X7.  Training survives a restart.  When a fresh process starts
    ([os.makedirs] does not raise: no file stands at [models] and the host
    does not refuse) and trains, its model and scaler files are written
    without failure, and [pickle] gives back what it dumped, then a later
    [TrafficPredictor()] on a disk holding these files returns with the
    very same predictor: it is trained, it needs no training run, and it
    answers every query as the process that trained. *)
Theorem restart_restores_training (w w2 : world) :
  let w1 := snd (bind TrafficPredictor_init (fun _ => train_model) w) in
  let p1 := w_predictor w1 in
  makedirs_fails "models" = false ->
  w_disk w !! "models" = None ->
  write_succeeds "models/traffic_model.pkl" ->
  write_succeeds "models/scaler.pkl" ->
  pickle_loads_model (pickle_dumps_model (model p1)) = Some (model p1) ->
  pickle_loads_scaler (pickle_dumps_scaler (scaler p1)) = Some (scaler p1) ->
  w_disk w2 = w_disk w1 ->
  exists score w3,
    bind TrafficPredictor_init (fun _ => train_model) w = (Ok score, w1) /\
    TrafficPredictor_init w2 = (Ok tt, w3) /\
    w_predictor w3 = p1 /\
    is_trained p1 = true /\
    forall hour day_of_week weather,
      predict hour day_of_week weather w3
        = (infer p1 hour day_of_week weather, w3).
Proof.
  intros w1 p1 Hmk Hdir E1 E2 Lm Ls Hdisk.
  (* the process that trains *)
  destruct (init_predictor w Hmk Hdir) as (w0 & Ei & Pm & Ps & Pi & Pd).
  pose proof (train_model_files w0) as Hf. cbn zeta in Hf.
  rewrite Pm, Ps, Pi in Hf. specialize (Hf E1 E2).
  destruct Hf as (score & w1' & Et & Ht & Dm & Ds & Hframe);
    try discriminate.
  assert (Hw1 : w1 = w1').
  { subst w1. unfold bind. rewrite Ei, Et. reflexivity. }
  clearbody w1. subst w1'. subst p1.
  (* the process that starts on its files *)
  assert (Hdir2 : w_disk w2 !! "models" = None).
  { rewrite Hdisk, Hframe by discriminate. rewrite Pd. exact Hdir. }
  assert (Hinit : exists w3, TrafficPredictor_init w2 = (Ok tt, w3) /\
                             w_predictor w3 = w_predictor w1).
  { unfold TrafficPredictor_init, os_makedirs. run_program. cbn.
    rewrite Hdir2, Hmk.
    match goal with
    | |- context [load_model ?wl] =>
        pose proof (load_model_restores wl (model (w_predictor w1))
                      (scaler (w_predictor w1))) as Hl;
        destruct (load_model_frame wl) as (b & w3 & El & _)
    end.
    rewrite El in *. cbn in Hl.
    exists w3. split; [reflexivity|].
    rewrite Hl.
    - assert (Qm : model_path (w_predictor w1) = "models/traffic_model.pkl" /\
                   scaler_path (w_predictor w1) = "models/scaler.pkl" /\
                   model_info_path (w_predictor w1) = "models/model_info.json").
      { revert Et. unfold train_model. run_program. cbn.
        destruct (generate_training_data 1000 (w_rng w0)) as [df g'].
        destruct (train_test_split df) as [train test]. cbn.
        match goal with
        | |- context [save_model ?ws] =>
            destruct (save_model_spec ws) as (b' & ws' & line & -> & Hp & _)
        end.
        intros Eq. injection Eq as _ <-. rewrite Hp. cbn.
        repeat split; assumption. }
      destruct Qm as (Qm & Qs & Qi).
      clear - Ht Qm Qs Qi. destruct (w_predictor w1); cbn in *.
      subst. reflexivity.
    - unfold restorable. rewrite Hdisk, Dm. exact Lm.
    - unfold restorable. rewrite Hdisk, Ds. exact Ls. }
  destruct Hinit as (w3 & E3 & Hp3).
  exists score, w3. unfold bind at 1. rewrite Ei, Et.
  split; [reflexivity|]. split; [exact E3|].
  split; [exact Hp3|]. split; [exact Ht|].
  intros hour day_of_week weather.
  rewrite <- Hp3. apply predict_trained. rewrite Hp3. exact Ht.
Qed.


Opaque predict.

(** The rows of one tick have the ids that follow the counter, in
    order. *)
Lemma rows_from_ids (data : list reading) :
  forall (seq : Z) (flows : list Z),
    StronglySorted Z.lt (map col_id (rows_from seq data flows)) /\
    Forall (fun r => seq < col_id r <= seq + Z.of_nat (length data))
           (rows_from seq data flows).
Proof.
  induction data as [|record rest IH]; intros seq flows.
  { split; constructor. }
  destruct flows as [|flow flows']; [split; constructor|].
  cbn [rows_from]. destruct (IH (seq + 1) flows') as [Hs Hb].
  assert (Hb' : Forall (fun r => seq + 1 < col_id r
                                 <= seq + Z.of_nat (length (record :: rest)))
                       (rows_from (seq + 1) rest flows')).
  { eapply Forall_impl; [exact Hb|]. intros r Hr. cbn beta in Hr. cbn [length].
    clear - Hr. lia. }
  split.
  - cbn [map]. constructor; [exact Hs|].
    apply Forall_map. eapply Forall_impl; [exact Hb'|].
    intros r Hr. cbn beta in Hr. cbn. clear - Hr. lia.
  - constructor.
    + cbn. lia.
    + eapply Forall_impl; [exact Hb'|]. intros r Hr. cbn beta in Hr.
      clear - Hr. lia.
Qed.

(** What a completed [for] loop of [store_traffic_data] leaves in the
    connection: the rows of the records, with the predictions made for
    them, after the rows it held, and the counter moved by their number. *)
Lemma store_loop_rows (data : list reading) :
  forall (conn conn' : connection) (w w' : world),
    store_loop data conn w = (Ok conn', w') ->
    exists flows,
      length flows = length data /\
      Forall (fun v => 0 <= v) flows /\
      traffic_data (conn_view conn') =
        option_map
          (fun rows =>
             (rows ++ rows_from (sqlite_sequence (conn_view conn)) data flows)%list)
          (traffic_data (conn_view conn)) /\
      sqlite_sequence (conn_view conn') =
        sqlite_sequence (conn_view conn) + Z.of_nat (length data).
Proof.
  induction data as [|record rest IH]; intros conn conn' w w' E.
  - cbn in E. injection E as <- <-. exists []. cbn.
    split; [reflexivity|]. split; [constructor|]. split; [|lia].
    destruct (traffic_data (conn_view conn)); cbn; [rewrite app_nil_r|];
      reflexivity.
  - cbn [store_loop] in E. run_program_in E. cbn in E.
    destruct (randint 0 2 (w_rng w)) as [weather g'].
    match type of E with
    | context [predict ?h ?d ?x ?w0] =>
        destruct (predict h d x w0) as [[pf|e] w1] eqn:Ep
    end; [|discriminate].
    destruct (infer_value _ _ _ _ _ (predict_value _ _ _ _ _ _ Ep))
      as (_ & _ & _ & _ & _ & Hpos).
    unfold cursor_execute_insert in E.
    destruct (traffic_data (conn_view conn)) as [rows|] eqn:Et;
      [|discriminate].
    match type of E with
    | context [insert_fails ?r] => destruct (insert_fails r)
    end; [discriminate|].
    cbn in E. apply IH in E. destruct E as (flows & Hlen & Hall & Ht & Hseq).
    cbn in Ht, Hseq. exists (pf :: flows).
    split; [cbn; rewrite Hlen; reflexivity|].
    split; [constructor; assumption|]. split.
    + rewrite Ht. cbn. rewrite <- app_assoc. reflexivity.
    + rewrite Hseq. cbn [length]. lia.
Qed.



(** [store_traffic_data] keeps the ids in order, however it ends. *)
Lemma store_traffic_data_ids (data : list reading) (w : world) :
  ids_ok (w_db w) -> ids_ok (w_db (snd (store_traffic_data data w))).
Proof.
  intros Hok.
  unfold store_traffic_data, sqlite3_connect, conn_commit. run_program.
  pose proof (store_loop_spec data {| conn_view := w_db w |} w) as Hl.
  destruct (store_loop data {| conn_view := w_db w |} w) as [[conn'|e] w1] eqn:E;
    destruct Hl as (Hdb & _); cbn [snd]; [|rewrite Hdb; exact Hok].
  destruct (store_loop_rows _ _ _ _ _ E) as (flows & _ & _ & Hrows & Hseq).
  cbn in Hrows, Hseq |- *. unfold ids_ok in *. rewrite Hrows, Hseq.
  destruct (traffic_data (w_db w)) as [rows|]; cbn; [|exact I].
  destruct Hok as [Hs Hb].
  destruct (rows_from_ids data (sqlite_sequence (w_db w)) flows) as [Hs' Hb'].
  split.
  - rewrite map_app. apply StronglySorted_app_2; [|exact Hs|exact Hs'].
    intros x y Hx Hy.
    apply list_elem_of_fmap in Hx as (rx & -> & Hx).
    apply list_elem_of_fmap in Hy as (ry & -> & Hy).
    rewrite Forall_forall in Hb, Hb'.
    specialize (Hb rx Hx). specialize (Hb' ry Hy). cbn beta in *.
    clear - Hb Hb'. lia.
  - apply Forall_app. split.
    + eapply Forall_impl; [exact Hb|]. intros r Hr. cbn beta in Hr.
      clear - Hr. lia.
    + eapply Forall_impl; [exact Hb'|]. intros r Hr. cbn beta in Hr.
      clear - Hr. lia.
Qed.

(** [generate_sensor_data] reads the clock once and draws; it touches
    neither the predictor, nor the store, nor standard output. *)
Lemma generate_sensor_data_frame (w : world) :
  exists w1,
    generate_sensor_data w
      = (Ok (fst (generate_readings (clock (w_clock w)) IoTSimulator_sensors
                    (w_rng w))), w1) /\
    w_predictor w1 = w_predictor w /\ w_db w1 = w_db w /\
    w_stdout w1 = w_stdout w /\ w_slept w1 = w_slept w.
Proof.
  unfold generate_sensor_data. run_program. cbn.
  destruct (generate_readings (clock (w_clock w)) IoTSimulator_sensors (w_rng w))
    as [data g'].
  eexists. split; [reflexivity|]. cbn. repeat split.
Qed.

Lemma generate_readings_nonempty (current_time : datetime) (g : rng) :
  fst (generate_readings current_time IoTSimulator_sensors g) <> [].
Proof.
  pose proof (generate_readings_ids current_time IoTSimulator_sensors g) as Hids.
  intros E. rewrite E in Hids. discriminate Hids.
Qed.

Lemma collection_tick_ids (w : world) :
  ids_ok (w_db w) -> ids_ok (w_db (snd (collection_tick w))).
Proof.
  intros Hok. unfold collection_tick, try_except, tick_body.
  unfold bind at 1.
  destruct (generate_sensor_data_frame w) as (w1 & -> & _ & Hdb1 & _).
  unfold bind at 1.
  pose proof (store_traffic_data_ids
                (fst (generate_readings (clock (w_clock w)) IoTSimulator_sensors
                        (w_rng w))) w1) as Hkeep.
  rewrite Hdb1 in Hkeep. specialize (Hkeep Hok).
  destruct (store_traffic_data _ w1) as [[u|e] w2]; cbn [snd] in Hkeep;
    run_program; cbn; exact Hkeep.
Qed.

Lemma collection_tick_total (w : world) :
  collection_tick w = (Ok tt, snd (collection_tick w)).
Proof.
  destruct (collection_tick_spec w) as (w' & -> & _). reflexivity.
Qed.

Lemma collector_ids (n : nat) :
  forall w, ids_ok (w_db w) -> ids_ok (w_db (snd (data_collection_job n w))).
Proof.
  induction n as [|k IH]; intros w Hok; [exact Hok|].
  cbn [data_collection_job]. unfold bind.
  rewrite collection_tick_total. apply IH, collection_tick_ids, Hok.
Qed.

(** X10.  The ids of the stored rows strictly increase in the order of
    insertion (so no two rows share one) and none exceeds the
    AUTOINCREMENT counter.  [init_db], [store_traffic_data] however it
    ends, and any number of turns of the collector loop keep it so. *)
Theorem ids_stay_ordered (n : nat) (data : list reading) (w : world) :
  ids_ok (w_db w) ->
  ids_ok (w_db (snd (init_db w))) /\
  ids_ok (w_db (snd (store_traffic_data data w))) /\
  ids_ok (w_db (snd (data_collection_job n w))).
Proof.
  intros Hok. split; [|split].
  - unfold init_db. run_program. cbn.
    destruct (traffic_data (w_db w)) eqn:Et; [exact Hok|].
    unfold ids_ok. cbn. split; constructor.
  - apply store_traffic_data_ids, Hok.
  - apply collector_ids, Hok.
Qed.

(** Without the table the loop over a non-empty tick raises: at the
    first INSERT when the predictor is ready. *)
Lemma store_loop_no_table (data : list reading) (conn : connection)
    (w : world) :
  data <> [] ->
  traffic_data (conn_view conn) = None ->
  exists e w',
    store_loop data conn w = (Raise e, w') /\
    (ready (w_predictor w) ->
     e = OperationalError "no such table: traffic_data").
Proof.
  intros Hne Ht. destruct data as [|record rest]; [contradiction|].
  cbn [store_loop]. run_program. cbn.
  destruct (randint 0 2 (w_rng w)) as [weather g'].
  match goal with
  | |- context [predict ?h ?d ?x ?w0] =>
      pose proof (predict_ready h d x w0) as Hp;
      destruct (predict h d x w0) as [[pf|e] w1]
  end; cbn in Hp.
  - unfold cursor_execute_insert. rewrite Ht.
    eexists _, _. split; reflexivity.
  - eexists _, _. split; [reflexivity|]. intros Hready.
    destruct (Hp Hready) as (v & w' & E & _). discriminate E.
Qed.

Lemma tick_body_no_table (w : world) :
  traffic_data (w_db w) = None ->
  exists e w1,
    tick_body w = (Raise e, w1) /\
    (ready (w_predictor w) ->
     e = OperationalError "no such table: traffic_data").
Proof.
  intros Ht. unfold tick_body. unfold bind at 1.
  destruct (generate_sensor_data_frame w) as (w1 & -> & Hp1 & Hdb1 & _).
  unfold bind at 1.
  unfold store_traffic_data, sqlite3_connect. run_program.
  destruct (store_loop_no_table _ {| conn_view := w_db w1 |} w1
              (generate_readings_nonempty (clock (w_clock w)) (w_rng w)))
    as (e & w2 & -> & He).
  { cbn. rewrite Hdb1. exact Ht. }
  eexists _, _. split; [reflexivity|]. rewrite <- Hp1. exact He.
Qed.

Lemma collector_no_table (n : nat) :
  forall w, traffic_data (w_db w) = None ->
            w_db (snd (data_collection_job n w)) = w_db w.
Proof.
  induction n as [|k IH]; intros w Ht; [reflexivity|].
  cbn [data_collection_job]. unfold bind.
  destruct (tick_body_no_table w Ht) as (e & w1 & E & _).
  destruct (collection_tick_spec w) as (w' & -> & _ & _ & Hraise).
  destruct (Hraise e w1 E) as (Hdb & _).
  rewrite IH; [exact Hdb|]. rewrite Hdb. exact Ht.
Qed.

(** X11.  The collector does not create the table.  Started on a file
    without it, every turn's [try] block raises (at the first INSERT, "no
    such table", when the predictor is ready), the turn prints the error
    and goes on, and no number of turns changes the file. *)
Theorem collector_needs_init_db (n : nat) (w : world) :
  traffic_data (w_db w) = None ->
  exists e w1 w',
    tick_body w = (Raise e, w1) /\
    (ready (w_predictor w) ->
     e = OperationalError "no such table: traffic_data") /\
    collection_tick w = (Ok tt, w') /\
    w_stdout w' = (w_stdout w1 ++ [LogCollectionError e])%list /\
    w_db (snd (data_collection_job n w)) = w_db w.
Proof.
  intros Ht.
  destruct (tick_body_no_table w Ht) as (e & w1 & E & He).
  destruct (collection_tick_spec w) as (w' & Et & _ & _ & Hraise).
  destruct (Hraise e w1 E) as (_ & Hout).
  exists e, w1, w'. split; [exact E|]. split; [exact He|].
  split; [exact Et|]. split; [exact Hout|].
  apply collector_no_table, Ht.
Qed.

(** The first [predict] of a loop trains if the predictor is untrained;
    nothing else in the loop does, and nothing marks it untrained. *)
Lemma store_loop_training (data : list reading) :
  forall (conn : connection) (w : world),
    let w' := snd (store_loop data conn w) in
    match data with
    | [] => w' = w
    | _ :: _ =>
        is_trained (w_predictor w') = true /\
        training_runs (w_stdout w') =
          (training_runs (w_stdout w)
           + (if is_trained (w_predictor w) then 0 else 1))%nat
    end.
Proof.
  induction data as [|record rest IH]; intros conn w; [reflexivity|].
  cbn [store_loop]. run_program. cbn.
  destruct (randint 0 2 (w_rng w)) as [weather g'].
  match goal with
  | |- context [predict ?h ?d ?x ?w0] =>
      pose proof (predict_training h d x w0) as (Ht & Hruns);
      destruct (predict h d x w0) as [[pf|e] w1]
  end; cbn in Ht, Hruns; [|split; assumption].
  unfold cursor_execute_insert.
  destruct (traffic_data (conn_view conn)) as [rows|]; [|split; assumption].
  match goal with
  | |- context [insert_fails ?r] => destruct (insert_fails r)
  end; [split; assumption|].
  cbn.
  match goal with
  | |- context [store_loop rest ?c w1] => specialize (IH c w1)
  end.
  cbv zeta in IH. destruct rest as [|record' rest'].
  - rewrite IH. split; assumption.
  - destruct IH as (Ht' & Hruns'). rewrite Ht in Hruns'.
    split; [exact Ht'|]. rewrite Hruns', Hruns. apply Nat.add_0_r.
Qed.

Lemma collection_tick_training (w : world) :
  let w' := snd (collection_tick w) in
  is_trained (w_predictor w') = true /\
  training_runs (w_stdout w') =
    (training_runs (w_stdout w)
     + (if is_trained (w_predictor w) then 0 else 1))%nat.
Proof.
  intros w'. subst w'.
  remember (collection_tick w) as r eqn:E. revert E.
  unfold collection_tick, try_except, tick_body.
  unfold bind at 1.
  destruct (generate_sensor_data_frame w) as (w1 & -> & Hp1 & _ & Hout1 & _).
  unfold bind at 1.
  unfold store_traffic_data, sqlite3_connect, conn_commit.
  pose proof (generate_readings_nonempty (clock (w_clock w)) (w_rng w)) as Hne.
  pose proof (store_loop_training
                (fst (generate_readings (clock (w_clock w))
                        IoTSimulator_sensors (w_rng w)))
                {| conn_view := w_db w1 |} w1) as Hl.
  cbv zeta in Hl.
  destruct (fst (generate_readings (clock (w_clock w)) IoTSimulator_sensors
                   (w_rng w))) as [|record rest]; [contradiction|].
  run_program.
  destruct (store_loop (record :: rest) {| conn_view := w_db w1 |} w1)
    as [[conn'|e] w2]; cbn [snd] in Hl; destruct Hl as (Ht & Hruns);
    intros ->; cbn; rewrite Hp1, Hout1 in Hruns; unfold training_runs in *;
    rewrite ?List.filter_app, ?length_app; cbn; split; try exact Ht;
    destruct (is_trained (w_predictor w)); lia.
Qed.

(** From the first turn on the predictor is marked trained, and the
    first turn has trained exactly when it was not. *)
Lemma collector_training (n : nat) :
  forall w : world,
    let w' := snd (data_collection_job (S n) w) in
    is_trained (w_predictor w') = true /\
    training_runs (w_stdout w') =
      (training_runs (w_stdout w)
       + (if is_trained (w_predictor w) then 0 else 1))%nat.
Proof.
  induction n as [|k IH]; intros w.
  - cbn [data_collection_job]. unfold bind.
    rewrite collection_tick_total. cbn. apply collection_tick_training.
  - pose proof (collection_tick_training w) as (Ht & Hruns).
    change (data_collection_job (S (S k)) w)
      with (bind collection_tick (fun _ => data_collection_job (S k)) w).
    unfold bind. rewrite collection_tick_total.
    specialize (IH (snd (collection_tick w))). cbv zeta in IH.
    destruct IH as (Ht' & Hruns'). rewrite Ht in Hruns'.
    split; [exact Ht'|]. cbv zeta. rewrite Hruns', Hruns. apply Nat.add_0_r.
Qed.

(** X12.  The collector trains at most once.  Over any number of turns
    the number of training runs grows by at most one, and by none when the
    predictor was trained at the start; a trained predictor stays
    trained.  The run, if any, is made by the first [predict] that the
    [for] loop of [store_traffic_data] reaches: a pass of that loop over a
    non-empty tick, however it ends, leaves the predictor trained and has
    trained exactly when it was not. *)
Theorem collector_trains_once (n : nat) (w : world) :
  let w' := snd (data_collection_job n w) in
  (training_runs (w_stdout w')
   <= training_runs (w_stdout w)
      + (if is_trained (w_predictor w) then 0 else 1))%nat /\
  (is_trained (w_predictor w) = true ->
   is_trained (w_predictor w') = true /\
   training_runs (w_stdout w') = training_runs (w_stdout w)) /\
  (forall (data : list reading) (conn : connection),
     data <> [] ->
     let w1 := snd (store_loop data conn w) in
     is_trained (w_predictor w1) = true /\
     training_runs (w_stdout w1) =
       (training_runs (w_stdout w)
        + (if is_trained (w_predictor w) then 0 else 1))%nat).
Proof.
  split; [|split].
  - destruct n as [|k]; [cbn; lia|].
    destruct (collector_training k w) as (_ & ->). lia.
  - intros Ht. destruct n as [|k]; [split; [exact Ht|reflexivity]|].
    destruct (collector_training k w) as (Ht' & ->).
    rewrite Ht. split; [exact Ht'|apply Nat.add_0_r].
  - intros data conn Hne.
    pose proof (store_loop_training data conn w) as Hl.
    destruct data as [|record rest]; [contradiction|exact Hl].
Qed.

(** The fields of a reading that do not depend on the class of its
    Location. *)
Lemma generate_readings_fields (current_time : datetime)
    (sensors : list (string * Location)) (g : rng) (r : reading) :
  In r (fst (generate_readings current_time sensors g)) ->
  timestamp r = dt_isoformat current_time /\
  0 <= vehicle_count r <= 351 /\
  congestion_level r = level_of (vehicle_count r).
Proof.
  intros Hin. pose proof (reading_level _ _ _ _ Hin) as Hl.
  destruct (generate_readings_In _ _ _ _ Hin) as (sid & loc & g0 & _ & ->).
  destruct (sensor_reading_shape current_time sid loc g0)
    as (_ & _ & count & jitter & Hc & _ & Hv & _).
  destruct (sensor_reading_count current_time sid loc g0) as (Hts & _).
  split; [exact Hts|]. split; [lia|exact Hl].
Qed.




(** The [for] loop of [get_current_traffic]. *)
Lemma current_traffic_loop_spec (sensor_data : list reading) :
  forall w : world,
    ready (w_predictor w) ->
    exists entries w',
      current_traffic_loop sensor_data w = (Ok entries, w') /\
      map ct_data entries = sensor_data /\
      Forall (fun e =>
                0 <= ct_predicted_flow e /\
                ct_light_recommendation e =
                  (if String.eqb (congestion_level (ct_data e)) "High"
                   then "Extend Green"
                   else if String.eqb (congestion_level (ct_data e)) "Low"
                   then "Normal Cycle" else "Optimize Timing")) entries /\
      w_db w' = w_db w.
Proof.
  induction sensor_data as [|data rest IH]; intros w Hready.
  { eexists _, _. split; [reflexivity|]. repeat split. constructor. }
  cbn [current_traffic_loop]. run_program. cbn.
  destruct (randint 0 2 (w_rng w)) as [weather g'].
  match goal with
  | |- context [predict ?h ?d ?x ?w0] =>
      pose proof (predict_frame h d x w0) as (Hdb & _);
      destruct (predict_ready h d x w0 Hready)
        as (v & w1 & E & Hpos & _ & Hready1 & _)
  end.
  rewrite E in *. cbn in Hdb.
  destruct (IH w1 Hready1) as (entries & w2 & -> & Hmap & Hall & Hdb2).
  eexists _, _. split; [reflexivity|]. cbn.
  split; [rewrite Hmap; reflexivity|].
  split; [|congruence].
  constructor; [|exact Hall]. cbn. split; [exact Hpos|reflexivity].
Qed.

(** X14.  With a ready predictor [get_current_traffic] returns one entry
    per sensor, in the order of the dict; each has a non-negative
    predicted flow and the light recommendation its vehicle count decides:
    "Extend Green" above 80, "Optimize Timing" above 40, "Normal Cycle"
    otherwise.  The handler does not touch the store. *)
Theorem current_traffic_entries (w : world) :
  ready (w_predictor w) ->
  exists entries w',
    get_current_traffic w = (Ok entries, w') /\
    map (fun e => sensor_id (ct_data e)) entries = map fst IoTSimulator_sensors /\
    Forall (fun e =>
              0 <= ct_predicted_flow e /\
              timestamp (ct_data e) = dt_isoformat (clock (w_clock w)) /\
              ct_light_recommendation e =
                (if vehicle_count (ct_data e) >? 80 then "Extend Green"
                 else if vehicle_count (ct_data e) >? 40 then "Optimize Timing"
                 else "Normal Cycle")) entries /\
    w_db w' = w_db w.
Proof.
  intros Hready. unfold get_current_traffic. unfold bind.
  destruct (generate_sensor_data_frame w) as (w1 & -> & Hp1 & Hdb1 & _).
  rewrite <- Hp1 in Hready.
  destruct (current_traffic_loop_spec
              (fst (generate_readings (clock (w_clock w)) IoTSimulator_sensors
                      (w_rng w))) w1 Hready)
    as (entries & w2 & -> & Hmap & Hall & Hdb2).
  exists entries, w2. split; [reflexivity|]. split; [|split; [|congruence]].
  - rewrite <- (map_map ct_data sensor_id), Hmap.
    apply generate_readings_ids.
  - rewrite List.Forall_forall in Hall |- *. intros e Hin.
    destruct (Hall e Hin) as (Hpos & Hlight).
    assert (Hr : In (ct_data e)
                   (fst (generate_readings (clock (w_clock w))
                           IoTSimulator_sensors (w_rng w)))).
    { rewrite <- Hmap. apply in_map. exact Hin. }
    destruct (generate_readings_fields _ _ _ _ Hr) as (Hts & _ & Hl).
    split; [exact Hpos|]. split; [exact Hts|].
    rewrite Hlight, Hl. unfold level_of.
    destruct (vehicle_count (ct_data e) >? 80); [reflexivity|].
    destruct (vehicle_count (ct_data e) >? 40); reflexivity.
Qed.

Context `{Calendar}.

(** The [for] loop of [get_predictions], from turn [i] on. *)
Lemma predictions_loop_spec (current_time : datetime) (turns : nat) :
  forall (i : Z) (w : world),
    ready (w_predictor w) ->
    exists preds w',
      predictions_loop current_time i turns w = (Ok preds, w') /\
      map (fun p => (p_hour p, p_timestamp p)) preds
        = map (fun k => (dt_hour (add_hours current_time k),
                         dt_isoformat (add_hours current_time k)))
              (seqZ i (Z.of_nat turns)) /\
      Forall (fun p => 0 <= p_predicted_flow p) preds /\
      w_db w' = w_db w.
Proof.
  induction turns as [|k IH]; intros i w Hready.
  { eexists _, _. split; [reflexivity|]. repeat split. constructor. }
  cbn [predictions_loop]. run_program. cbn.
  destruct (randint 0 2 (w_rng w)) as [weather g'].
  match goal with
  | |- context [predict ?h ?d ?x ?w0] =>
      pose proof (predict_frame h d x w0) as (Hdb & _);
      destruct (predict_ready h d x w0 Hready)
        as (v & w1 & E & Hpos & _ & Hready1 & _)
  end.
  rewrite E in *. cbn in Hdb.
  destruct (IH (i + 1) w1 Hready1) as (preds & w2 & -> & Hmap & Hall & Hdb2).
  eexists _, _. split; [reflexivity|]. cbn [map p_hour p_timestamp].
  split; [|split; [constructor; [exact Hpos|exact Hall]|congruence]].
  rewrite seqZ_cons by lia.
  rewrite Nat2Z.inj_succ, Z.pred_succ, <- Z.add_1_r. cbn [map].
  rewrite Hmap. reflexivity.
Qed.

(** Starting from any hour, the next 24 hours cover each hour of the day
    once. *)
Lemma hours_enum :
  Zrange_forallb
    (fun h =>
       Zrange_forallb
         (fun k =>
            Nat.eqb (count_occ Z.eq_dec
                       (map (fun i => (h + i) mod 24) (seqZ 0 24)) k) 1)
         0 24)
    0 24 = true.
Proof. vm_compute. reflexivity. Qed.

(** X15.  With a ready predictor [get_predictions] returns 24 entries: the
    entry of turn [i] is for the hour of the time [i] hours after the one
    read at the start, so that the entries cover every hour of the day
    exactly once, starting with the current hour; each predicted flow is
    non-negative, and the handler does not touch the store. *)
Theorem predictions_cover_day (w : world) :
  0 <= dt_hour (clock (w_clock w)) < 24 ->
  ready (w_predictor w) ->
  exists preds w',
    get_predictions w = (Ok preds, w') /\
    map p_hour preds
      = map (fun i => (dt_hour (clock (w_clock w)) + i) mod 24) (seqZ 0 24) /\
    (forall k, 0 <= k < 24 ->
               count_occ Z.eq_dec (map p_hour preds) k = 1%nat) /\
    Forall (fun p => 0 <= p_predicted_flow p) preds /\
    w_db w' = w_db w.
Proof.
  intros Hh Hready. unfold get_predictions. run_program.
  destruct (predictions_loop_spec (clock (w_clock w)) 24 0
              (set_clock (S (w_clock w)) w) Hready)
    as (preds & w' & -> & Hmap & Hall & Hdb).
  assert (Hhours : map p_hour preds
            = map (fun i => (dt_hour (clock (w_clock w)) + i) mod 24)
                  (seqZ 0 24)).
  { apply (f_equal (map fst)) in Hmap. rewrite !map_map in Hmap. cbn in Hmap.
    change (Z.of_nat 24) with 24 in Hmap.
    etransitivity; [exact Hmap|].
    apply map_ext_in. intros i Hi.
    apply list_elem_of_In, elem_of_seqZ in Hi.
    apply add_hours_hour; lia. }
  exists preds, w'. split; [reflexivity|]. split; [exact Hhours|].
  split; [|split; [exact Hall|exact Hdb]].
  intros k Hk. rewrite Hhours.
  pose proof (Zrange_forallb_spec _ _ _ hours_enum
                (dt_hour (clock (w_clock w))) ltac:(lia)) as E.
  cbv beta in E.
  pose proof (Zrange_forallb_spec _ _ _ E k ltac:(lia)) as Ek.
  apply Nat.eqb_eq in Ek. exact Ek.
Qed.

Transparent predict generate_training_data generate_readings.

End PredictorProperties.

(* ===================================================================== *)
(** ** The further properties on concrete hosts *)
(* ===================================================================== *)

Lemma rush_exceeds_night_witness :
  Forall2 (fun r1 r2 =>
             vehicle_count r2 < vehicle_count r1 /\
             congestion_level r2 <> "High" /\
             (congestion_type (location r1) = Some "high" ->
              congestion_level r1 = "High"))
          (fst (@generate_readings scripted at_9h IoTSimulator_sensors []))
          (fst (@generate_readings scripted at_23h IoTSimulator_sensors [])).
Proof.
  apply (@rush_exceeds_night scripted at_9h at_23h IoTSimulator_sensors [] []).
  - left. simpl. lia.
  - left. simpl. lia.
Defined.

(** The ten calls of [test_consistency], on a process that found no model
    to load. *)
Lemma predictions_consistent_witness :
  let w := world0 fresh_predictor in
  exists v w',
    @predict_repeatedly scripted table_sklearn sound_host 10 17 1 1 w
      = (Ok (replicate 10 v), w') /\
    all_same (replicate 10 v) = true /\
    0 <= v /\
    training_runs (w_stdout w') =
      (training_runs (w_stdout w)
       + (if is_trained (w_predictor w) then 0 else 1))%nat.
Proof.
  intros w.
  apply (@predictions_consistent scripted table_sklearn sound_host 9 17 1 1 w).
  intros Ht. discriminate Ht.
Defined.

(** A process starts on an empty disk, trains and saves;
    [TrafficPredictor()] is then run again on what it left. *)
Lemma restart_restores_training_witness :
  let w1 :=
    snd (bind (@TrafficPredictor_init scripted table_sklearn sound_host)
              (fun _ => @train_model scripted table_sklearn sound_host)
              (world0 fresh_predictor)) in
  exists score w3,
    bind (@TrafficPredictor_init scripted table_sklearn sound_host)
         (fun _ => @train_model scripted table_sklearn sound_host)
         (world0 fresh_predictor) = (Ok score, w1) /\
    @TrafficPredictor_init scripted table_sklearn sound_host w1 = (Ok tt, w3) /\
    w_predictor w3 = w_predictor w1 /\
    is_trained (w_predictor w1) = true /\
    forall hour day_of_week weather,
      @predict scripted table_sklearn sound_host hour day_of_week weather w3
        = (infer (w_predictor w1) hour day_of_week weather, w3).
Proof.
  intros w1. subst w1.
  apply (@restart_restores_training scripted table_sklearn sound_host
           (world0 fresh_predictor)
           (snd (bind (@TrafficPredictor_init scripted table_sklearn sound_host)
                      (fun _ => @train_model scripted table_sklearn sound_host)
                      (world0 fresh_predictor)))).
  - reflexivity.
  - reflexivity.
  - split; reflexivity.
  - split; reflexivity.
  - vm_compute. reflexivity.
  - vm_compute. reflexivity.
  - reflexivity.
Defined.


Lemma ids_stay_ordered_witness :
  let w := world0 trained_predictor in
  ids_ok (w_db (snd (@init_db scripted table_sklearn w))) /\
  ids_ok (w_db (snd (@store_traffic_data scripted table_sklearn sound_host
                       night_readings w))) /\
  ids_ok (w_db (snd (@data_collection_job scripted table_sklearn sound_host 2 w))).
Proof.
  intros w.
  apply (@ids_stay_ordered scripted table_sklearn sound_host 2 night_readings w).
  unfold ids_ok. simpl. split; constructor.
Defined.

Lemma collector_needs_init_db_witness :
  let w := world1 trained_predictor in
  exists e w1 w',
    @tick_body scripted table_sklearn sound_host w = (Raise e, w1) /\
    (ready (w_predictor w) ->
     e = OperationalError "no such table: traffic_data") /\
    @collection_tick scripted table_sklearn sound_host w = (Ok tt, w') /\
    w_stdout w' = (w_stdout w1 ++ [LogCollectionError e])%list /\
    w_db (snd (@data_collection_job scripted table_sklearn sound_host 2 w))
      = w_db w.
Proof.
  intros w.
  apply (@collector_needs_init_db scripted table_sklearn sound_host 2 w).
  reflexivity.
Defined.


Lemma current_traffic_entries_witness :
  let w := world0 trained_predictor in
  exists entries w',
    @get_current_traffic scripted table_sklearn sound_host w = (Ok entries, w') /\
    map (fun e => sensor_id (ct_data e)) entries = map fst IoTSimulator_sensors /\
    Forall (fun e =>
              0 <= ct_predicted_flow e /\
              timestamp (ct_data e)
                = dt_isoformat (@clock table_sklearn sound_host (w_clock w)) /\
              ct_light_recommendation e =
                (if vehicle_count (ct_data e) >? 80 then "Extend Green"
                 else if vehicle_count (ct_data e) >? 40 then "Optimize Timing"
                 else "Normal Cycle")) entries /\
    w_db w' = w_db w.
Proof.
  intros w.
  apply (@current_traffic_entries scripted table_sklearn sound_host w).
  intros _. split; discriminate.
Defined.

Lemma predictions_cover_day_witness :
  let w := world0 trained_predictor in
  exists preds w',
    @get_predictions scripted table_sklearn sound_host hour_calendar w
      = (Ok preds, w') /\
    map p_hour preds = map (fun i => (23 + i) mod 24) (seqZ 0 24) /\
    (forall k, 0 <= k < 24 ->
               count_occ Z.eq_dec (map p_hour preds) k = 1%nat) /\
    Forall (fun p => 0 <= p_predicted_flow p) preds /\
    w_db w' = w_db w.
Proof.
  intros w.
  apply (@predictions_cover_day scripted table_sklearn sound_host hour_calendar w).
  - simpl. lia.
  - intros _. split; discriminate.
Defined.
